(** * Marketplace backend: authentication, access guard and product routes

    A shallow embedding of [app/views.py] and [app/models.py].

    - Python values that travel through rows and token claims are [pyval];
      parsed request bodies are [json].
    - A Python [dict] with string keys is a [gmap string _].
    - The two tables the handlers touch are finite maps from the primary
      key to the other columns of the row; a loaded object is the pair of
      its key and its row. A handler is a function of the [World] in the
      monad [M], which threads the tables, the count of clock readings and
      the count of random draws, and carries a raised exception.
    - Everything outside the repository that the handlers call (the clock,
      [uuid], [bcrypt], the signature part of [jwt], Python's text-to-number
      conversions, the checks of the storage engine at commit) is a field
      of [Platform].
    - A Python [float] is the rational it denotes: the clock reads
      fractional seconds, and [float(n)] rounds an [int] to the nearest
      double. Infinities and NaN are outside the model.
    - A write reaches a table only through a commit that the store
      accepts, and a row is read back with the values that were written. *)

From Stdlib Require Import ZArith QArith String Ascii List.
From stdpp Require Import gmap strings list fin_maps.

Local Open Scope Z_scope.
Local Open Scope string_scope.

(** ** Values *)

(** Column values and claim values: [None], [int], [float] (the rational
    that the double denotes), [str]. *)
Inductive pyval :=
| PNone
| PInt (n : Z)
| PFloat (q : Q)
| PStr (s : string).

(** A request body as [flask.request.json] returns it. *)
#[warnings="-register-all"]
Inductive json :=
| JNull
| JBool (b : bool)
| JInt (n : Z)
| JFloat (q : Q)
| JStr (s : string)
| JList (l : list json)
| JDict (d : gmap string json).

(** Python's [==] on [pyval]: numbers compare by value across [int] and
    [float], [None] equals only [None], text equals only equal text. *)
Definition py_eq (a b : pyval) : bool :=
  match a, b with
  | PNone, PNone => true
  | PInt x, PInt y => Z.eqb x y
  | PInt x, PFloat q | PFloat q, PInt x => Qeq_bool (inject_Z x) q
  | PFloat p, PFloat q => Qeq_bool p q
  | PStr s, PStr t => String.eqb s t
  | _, _ => false
  end.

Definition py_ne (a b : pyval) : bool := negb (py_eq a b).

(** ** Exceptions and results *)

Inductive exn :=
| KeyError (k : string)
| AttributeError
| TypeError
| ValueError
| HTTPException            (* raised by [flask.request.json] on a body that is not JSON *)
| DecodeError              (* jwt: malformed token *)
| InvalidSignatureError    (* jwt: signature or algorithm rejected *)
| InvalidIssuedAtError     (* jwt: iat is text that is no integer *)
| ImmatureSignatureError   (* jwt: issued in the future *)
| ExpiredSignatureError    (* jwt: past its expiry *)
| StoreError.              (* the storage layer refuses a statement:
                              sqlalchemy's IntegrityError or DataError, or
                              the driver's OverflowError *)

Inductive result (A : Type) :=
| Return (a : A)
| Raise (e : exn).
Arguments Return {A} a.
Arguments Raise {A} e.

(** ** models.py *)

(** [class UserRole(Enum)], by the values of its members. *)
Module UserRole.
Definition user : Z := 0.
Definition admin : Z := 1.
End UserRole.

(** [class User(db.Model)]: the columns beside the primary key [user_id],
    all nullable. *)
Record User := mkUser {
  user_name : pyval;
  phone : pyval;
  role : pyval;
  email : pyval;
  profile_picture : pyval;
  hash : pyval
}.

(** [User.to_dict] of the object with key [self.1] and row [self.2]. *)
Definition User_to_dict (self : string * User) : gmap string pyval :=
  <["user_id" := PStr self.1]>
  (<["user_name" := user_name self.2]>
  (<["phone" := phone self.2]>
  (<["role" := role self.2]>
  (<["email" := email self.2]>
  (<["profile_picture" := profile_picture self.2]> ∅))))).

(** [class Product(db.Model)]: the columns beside the primary key
    [product_id]; [p_user_id] is the column [user_id]. *)
Record Product := mkProduct {
  product_name : pyval;
  picture : pyval;
  selling_price : pyval;
  description : pyval;
  available : pyval;
  p_user_id : pyval;
  category_id : pyval
}.

(** [class Category(db.Model)]: the column beside the primary key
    [category_id]. *)
Record Category := mkCategory { category_name : pyval }.

(** [Category.to_dict] of the object with key [self.1] and row [self.2]. *)
Definition Category_to_dict (self : Z * Category) : gmap string pyval :=
  <["category_id" := PInt self.1]> (<["category_name" := category_name self.2]> ∅).

(** ** The world: tables, clock readings taken, random draws taken *)

Record World := mkWorld {
  users : gmap string User;
  products : gmap Z Product;
  ticks : nat;
  draws : nat
}.

(** What [db.session.commit()] is asked to flush: the merge of a user, the
    insertion of a product that has no key yet, the merge of a product, the
    deletion of a product. *)
Inductive write :=
| MergeUser (user : string * User)
| AddProduct (product : Product)
| MergeProduct (product : Z * Product)
| DeleteProduct (product : Z * Product).

(** ** What the handlers call outside the repository *)

Class Platform := {
  (** [time.time()]: the value of the n-th reading of the clock, in
      seconds and fractions of a second. *)
  clock : nat -> Q;
  (** [str(uuid.uuid4())] and [bcrypt.gensalt()] at the n-th random draw. *)
  uuid4 : nat -> string;
  gensalt : nat -> string;
  (** [bcrypt.hashpw(password, salt)]; [None] when it raises [ValueError]
      (bcrypt 5 does on a password of more than 72 bytes). *)
  hashpw : string -> string -> option string;
  (** [bcrypt.checkpw(password, hashed)]; [None] when it raises
      [ValueError]: on a malformed hash, and where [hashpw] raises. *)
  checkpw : string -> string -> option bool;
  (** [jwt.encode(payload, key, algorithm)]. *)
  jwt_encode : gmap string pyval -> string -> string -> string;
  (** The signature step of [jwt.decode(token, key, algorithms=[algorithm])]:
      the payload of a token whose header and signature are accepted. *)
  jws_verify : string -> string -> string -> option (gmap string pyval);
  (** [int(text)] and [float(text)]; [None] when they raise [ValueError]. *)
  int_of_str : string -> option Z;
  float_of_str : string -> option Q;
  (** How the storage layer reads the text of a URL segment as a BIGINT key. *)
  bigint_of_text : string -> option Z;
  (** Whether the storage engine, with the tables as they are, accepts a
      write at commit: its unique and foreign-key constraints and the
      limits of its column types, as far as the engine enforces them. *)
  engine_accepts : gmap string User -> gmap Z Product -> write -> bool;
  (** Whether the driver refuses an integer beyond 64 bits as the key of a
      lookup (sqlite3 raises [OverflowError]; other engines find no row). *)
  refuses_big_keys : bool
}.

(** [flask.current_app.config], read-only after start-up. *)
Record Config := mkConfig {
  JWT_PRIVATE_KEY : string;
  JWT_PUBLIC_KEY : string;
  JWT_ALGORITHM : string
}.

(** ** The handler monad *)

Definition M (A : Type) : Type := World -> result A * World.

Definition ret {A} (a : A) : M A := fun w => (Return a, w).
Definition raise {A} (e : exn) : M A := fun w => (Raise e, w).
Definition bind {A B} (m : M A) (k : A -> M B) : M B :=
  fun w => match m w with
           | (Return a, w') => k a w'
           | (Raise e, w') => (Raise e, w')
           end.
(** [try: x = m except: ...] with a bare [except]: the outcome of [m] with
    every exception caught. *)
Definition attempt {A} (m : M A) : M (option A) :=
  fun w => match m w with
           | (Return a, w') => (Return (Some a), w')
           | (Raise _, w') => (Return None, w')
           end.
Definition lift {A} (r : result A) : M A := fun w => (r, w).

Declare Scope handler_scope.
Delimit Scope handler_scope with handler.
Notation "x '<-' m ';;' k" := (bind m (fun x => k))
  (at level 100, m at next level, right associativity) : handler_scope.
Notation "m ';;;' k" := (bind m (fun _ => k))
  (at level 100, right associativity) : handler_scope.
Local Open Scope handler_scope.

Definition get_world : M World := fun w => (Return w, w).
Definition set_users (us : gmap string User) : M unit :=
  fun w => (Return tt, mkWorld us (products w) (ticks w) (draws w)).
Definition set_products (ps : gmap Z Product) : M unit :=
  fun w => (Return tt, mkWorld (users w) ps (ticks w) (draws w)).

(** Python's [d[k]]. *)
Definition getitem {V} (d : gmap string V) (k : string) : M V :=
  match d !! k with
  | Some v => ret v
  | None => raise (KeyError k)
  end.

Section WithPlatform.
Context {platform : Platform}.

(** [now()]: one reading of the clock. *)
Definition now : M Q :=
  fun w => (Return (clock (ticks w)),
            mkWorld (users w) (products w) (S (ticks w)) (draws w)).

(** One random draw through [f]. *)
Definition draw (f : nat -> string) : M string :=
  fun w => (Return (f (draws w)),
            mkWorld (users w) (products w) (ticks w) (S (draws w))).

(** ** Text helpers *)

Fixpoint strip_prefix (p s : string) : option string :=
  match p, s with
  | EmptyString, _ => Some s
  | String a p', String b s' => if Ascii.eqb a b then strip_prefix p' s' else None
  | String _ _, EmptyString => None
  end.

Definition newline : ascii := ascii_of_nat 10.

Fixpoint until_newline (s : string) : string :=
  match s with
  | EmptyString => EmptyString
  | String c s' => if Ascii.eqb c newline then EmptyString else String c (until_newline s')
  end.

Fixpoint count_char (c : ascii) (s : string) : nat :=
  match s with
  | EmptyString => O
  | String a s' => (if Ascii.eqb a c then 1 else 0) + count_char c s'
  end%nat.

Fixpoint all_chars (p : ascii -> bool) (s : string) : bool :=
  match s with
  | EmptyString => true
  | String a s' => p a && all_chars p s'
  end.

Fixpoint split_at_first (c : ascii) (s : string) : option (string * string) :=
  match s with
  | EmptyString => None
  | String a s' =>
      if Ascii.eqb a c then Some (EmptyString, s')
      else match split_at_first c s' with
           | Some (l, r) => Some (String a l, r)
           | None => None
           end
  end.

Fixpoint split_at_last (c : ascii) (s : string) : option (string * string) :=
  match s with
  | EmptyString => None
  | String a s' =>
      match split_at_last c s' with
      | Some (l, r) => Some (String a l, r)
      | None => if Ascii.eqb a c then Some (EmptyString, s') else None
      end
  end.

Definition first_char (s : string) : option ascii :=
  match s with EmptyString => None | String a _ => Some a end.

Fixpoint last_char (s : string) : option ascii :=
  match s with
  | EmptyString => None
  | String a EmptyString => Some a
  | String _ s' => last_char s'
  end.

Definition in_range (lo hi : N) (c : ascii) : bool :=
  (N.leb lo (N_of_ascii c) && N.leb (N_of_ascii c) hi)%N.
Definition is_char (x : string) (c : ascii) : bool :=
  match x with String a EmptyString => Ascii.eqb a c | _ => false end.
Definition is_alpha (c : ascii) : bool := in_range 65 90 c || in_range 97 122 c.
Definition is_digit (c : ascii) : bool := in_range 48 57 c.
(** [\w] on the characters the address classes allow. *)
Definition is_word (c : ascii) : bool := is_alpha c || is_digit c || is_char "_" c.

(** [re.match] of the header against the pattern: the literal [Bearer],
    one space, then a group of any characters but a newline. The header
    must start with the literal; the group runs to the end of its first
    line. *)
Definition re_match_Bearer (header : string) : option string :=
  match strip_prefix "Bearer " header with
  | Some rest => Some (until_newline rest)
  | None => None
  end.

(** ** The token library

    [jwt] is not part of the repository. [jwt.decode] is modelled after
    PyJWT 2: a token needs three segments; the header and the signature are
    checked against the one configured key and algorithm ([jws_verify], a
    field of [Platform]); then the clock is read once and the claims iat
    and exp, when present, are checked against it: the library takes
    [int(...)] of each claim and compares that whole number of seconds
    with the reading. Of the registered claims only iat and exp are
    modelled; [create_token] writes no other. *)

(** [int(x)] on a [float]: the whole part, rounded towards zero. *)
Definition whole (q : Q) : Z := Z.quot (Qnum q) (Zpos (Qden q)).

(** Python's [int(v)] on a claim value. *)
Definition py_int (v : pyval) : result Z :=
  match v with
  | PInt n => Return n
  | PFloat q => Return (whole q)
  | PStr s => match int_of_str s with
              | Some n => Return n
              | None => Raise ValueError
              end
  | PNone => Raise TypeError
  end.

(** [try: int(v) except ValueError: raise e]. *)
Definition py_int_or (e : exn) (v : pyval) : result Z :=
  match py_int v with
  | Raise ValueError => Raise e
  | r => r
  end.

(** A compact token has a header, a payload and a signature segment. *)
Definition enough_segments (token : string) : bool :=
  Nat.leb 2 (count_char "." token).

(** A token issued in the future ([int(iat) > now]) is refused; a token
    whose exp is not after the current time ([int(exp) <= now]) is refused
    as expired. *)
Definition validate_iat (payload : gmap string pyval) (t : Q) : M unit :=
  match payload !! "iat" with
  | None => ret tt
  | Some v =>
      iat <- lift (py_int_or InvalidIssuedAtError v) ;;
      if Qle_bool (inject_Z iat) t then ret tt else raise ImmatureSignatureError
  end.

Definition validate_exp (payload : gmap string pyval) (t : Q) : M unit :=
  match payload !! "exp" with
  | None => ret tt
  | Some v =>
      exp <- lift (py_int_or DecodeError v) ;;
      if Qle_bool (inject_Z exp) t then raise ExpiredSignatureError else ret tt
  end.

(** [jwt.decode(token, key, algorithms=[algorithm])]: the token is split
    into its segments, its signature is checked, and the time claims are
    checked against one reading of the clock. *)
Definition jwt_decode (token key algorithm : string) : M (gmap string pyval) :=
  if enough_segments token then
    match jws_verify token key algorithm with
    | Some payload =>
        t <- now ;;
        validate_iat payload t ;;;
        validate_exp payload t ;;;
        ret payload
    | None => raise InvalidSignatureError
    end
  else raise DecodeError.

(** ** The schema library

    [schema] is not part of the repository either. A dict schema with
    literal keys accepts a dict that has exactly the schema's keys, each
    with a value its validator accepts, and returns the dict of the
    validated values. *)

Inductive SchemaError :=
| SchemaUnexpectedTypeError   (* the data is not a dict *)
| SchemaValueError            (* the value under a key of the schema is rejected *)
| SchemaMissingKeyError       (* a key of the schema is absent *)
| SchemaWrongKeyError.        (* the data has a key the schema does not have *)

(** The value schemas that [views.py] writes. *)
Inductive validator :=
| And_str_len                    (* schema.And(str, len) *)
| And_str_len_is_email           (* schema.And(str, len, is_email) *)
| And_Use_int_ge0                (* schema.And(schema.Use(int), lambda i: i >= 0) *)
| And_Use_float_ge0.             (* schema.And(schema.Use(float), lambda i: i >= 0) *)

(** A dict schema with literal keys, none optional. *)
Definition Schema := list (string * validator).

(** [EMAIL_REGEX]: a word boundary, one or more of letters, digits and
    [._%+-], an at sign, one or more of letters, digits and [.-], a dot, two
    or more of letters and the bar, a word boundary. *)
Definition local_char (c : ascii) : bool :=
  is_alpha c || is_digit c || is_char "." c || is_char "_" c || is_char "%" c
  || is_char "+" c || is_char "-" c.
Definition domain_char (c : ascii) : bool :=
  is_alpha c || is_digit c || is_char "." c || is_char "-" c.
Definition tld_char (c : ascii) : bool := is_alpha c || is_char "|" c.

Definition starts_and_ends_on_word (s : string) : bool :=
  match first_char s, last_char s with
  | Some a, Some b => is_word a && is_word b
  | _, _ => false
  end.

(** [is_email]: [re.fullmatch(EMAIL_REGEX, email_address)] as a truth
    value. No class holds the at sign and the last class holds no dot, so
    a full match splits the text at its one at sign and at its last dot. *)
Definition is_email (email_address : string) : bool :=
  match split_at_first "@" email_address with
  | Some (local, rest) =>
      match split_at_last "." rest with
      | Some (domain, tld) =>
          starts_and_ends_on_word email_address
          && Nat.leb 1 (String.length local) && all_chars local_char local
          && Nat.leb 1 (String.length domain) && all_chars domain_char domain
          && Nat.leb 2 (String.length tld) && all_chars tld_char tld
      | None => false
      end
  | None => false
  end.

(** [float(n)] on an [int]: the nearest double, a tie going to the even
    significand; [None] when it raises [OverflowError]. An integer of at
    most 53 bits is a double; a longer one keeps its 53 leading bits,
    rounded, and must stay below 2^1024. *)
Definition float_of_int (n : Z) : option Q :=
  let a := Z.abs n in
  let extra := Z.log2 a + 1 - 53 in
  if (extra <=? 0)%Z then Some (inject_Z n)
  else
    let leading := Z.shiftr a extra in
    let rest := Z.land a (Z.ones extra) in
    let half := Z.shiftl 1 (extra - 1) in
    let rounded :=
      if (half <? rest)%Z || ((rest =? half)%Z && Z.odd leading)
      then leading + 1 else leading in
    let m := Z.shiftl rounded extra in
    if (2 ^ 1024 <=? m)%Z then None else Some (inject_Z (Z.sgn n * m)).

(** Python's [int(x)] and [float(x)] on a JSON value; [None] when they raise. *)
Definition int_of_json (j : json) : option Z :=
  match j with
  | JInt n => Some n
  | JBool b => Some (if b then 1 else 0)
  | JFloat q => Some (whole q)
  | JStr s => int_of_str s
  | JNull | JList _ | JDict _ => None
  end.

Definition float_of_json (j : json) : option Q :=
  match j with
  | JInt n => float_of_int n
  | JBool b => Some (inject_Z (if b then 1 else 0))
  | JFloat q => Some q
  | JStr s => float_of_str s
  | JNull | JList _ | JDict _ => None
  end.

(** Validation of one value: the value the schema returns, or [None] when
    it raises [SchemaError]. *)
Definition validate_value (v : validator) (j : json) : option pyval :=
  match v with
  | And_str_len =>
      match j with
      | JStr s => if Nat.leb 1 (String.length s) then Some (PStr s) else None
      | _ => None
      end
  | And_str_len_is_email =>
      match j with
      | JStr s => if Nat.leb 1 (String.length s) && is_email s then Some (PStr s) else None
      | _ => None
      end
  | And_Use_int_ge0 =>
      match int_of_json j with
      | Some i => if Z.leb 0 i then Some (PInt i) else None
      | None => None
      end
  | And_Use_float_ge0 =>
      match float_of_json j with
      | Some i => if Qle_bool 0 i then Some (PFloat i) else None
      | None => None
      end
  end.

(** The loop of [Schema.validate] over the items of the data: a key of the
    data that is a key of the schema must carry a valid value, which goes
    into the new dict. *)
Fixpoint validate_items (s : Schema) (data : gmap string json)
  : option (gmap string pyval) :=
  match s with
  | [] => Some ∅
  | (k, v) :: s' =>
      match validate_items s' data with
      | None => None
      | Some new =>
          match data !! k with
          | None => Some new
          | Some j =>
              match validate_value v j with
              | Some x => Some (<[k := x]> new)
              | None => None
              end
          end
      end
  end.

Definition covered (s : Schema) (new : gmap string pyval) : bool :=
  forallb (fun kv => bool_decide (is_Some (new !! kv.1))) s.

(** [Schema(s).validate(data)]: the data must be a dict; the values under
    the schema's keys are validated; then every key of the schema must have
    been met; then the data must have no key beyond them. *)
Definition validate (s : Schema) (data : json) : SchemaError + gmap string pyval :=
  match data with
  | JDict d =>
      match validate_items s d with
      | None => inl SchemaValueError
      | Some new =>
          if negb (covered s new) then inl SchemaMissingKeyError
          else if negb (Nat.eqb (size new) (size d)) then inl SchemaWrongKeyError
          else inr new
      end
  | _ => inl SchemaUnexpectedTypeError
  end.

(** ** views.py *)

Variable config : Config.

(** A response: the body and the status code. *)
Inductive Body :=
| Status (s : string)                            (* {"status": s} *)
| StatusMessage (s : string) (error : SchemaError) (* {"status": s, "message": str(error)} *)
| Token (t : string)                             (* {"token": t} *)
| Message (m : string)                           (* {"message": m} *)
| Json (d : gmap string pyval).                  (* a row's to_dict() *)

Definition Response : Type := Body * Z.

(** [flask.jsonify(body)]: the body with status 200. *)
Definition jsonify (b : Body) : Response := (b, 200).

(** What a handler reads of [flask.request]: the Authorization header when
    there is one, and the body when it parses as JSON. *)
Record Request := mkRequest {
  authorization : option string;
  json_body : option json
}.

(** [flask.g] of one request. *)
Record G := mkG { token : gmap string pyval }.

(** [flask.request.json] *)
Definition request_json (req : Request) : M json :=
  match json_body req with
  | Some j => ret j
  | None => raise HTTPException
  end.

(** [x.copy()] on a body: dicts and lists have it. *)
Definition copy (j : json) : M json :=
  match j with
  | JDict _ | JList _ => ret j
  | _ => raise AttributeError
  end.

(** [s.encode()]: only text has it. *)
Definition encode (v : pyval) : M string :=
  match v with
  | PStr s => ret s
  | _ => raise AttributeError
  end.

Definition SECOND : Z := 1.
Definition MINUTE : Z := 60 * SECOND.
Definition HOUR : Z := 60 * MINUTE.

(** [create_token(expires_in, **kwargs)]: the dict display reads the clock
    for [iat], reads it again for [exp], then lets [kwargs] override. Both
    entries are floats; the sum of a reading and a lifetime of whole seconds
    is taken exactly, as it is on the doubles of a clock of these years. *)
Definition create_token (expires_in : Z) (kwargs : gmap string pyval) : M string :=
  let private_key := JWT_PRIVATE_KEY config in
  let algorithm := JWT_ALGORITHM config in
  iat <- now ;;
  t <- now ;;
  ret (jwt_encode
         (kwargs ∪ <["iat" := PFloat iat]>
                   (<["exp" := PFloat (t + inject_Z expires_in)%Q]> ∅))
         private_key algorithm).

(** The default of [expires_in]. *)
Definition default_expires_in : Z := 1 * HOUR.

Definition Forbidden : Response := (Status "Forbidden", 403).

(** [token_required(f)]: the function [inner]. *)
Definition token_required (f : G -> Request -> M Response) (req : Request)
  : M Response :=
  match authorization req with
  | None => ret Forbidden
  | Some header =>
      match re_match_Bearer header with
      | None => ret Forbidden
      | Some tok =>
          decoded <- attempt (jwt_decode tok (JWT_PUBLIC_KEY config) (JWT_ALGORITHM config)) ;;
          match decoded with
          | None => ret Forbidden
          | Some claims => f (mkG claims) req
          end
      end
  end.

(** *** The session *)

(** [query.filter(p).first()]: a row that satisfies [p], in the order the
    table yields its rows. *)
Definition query_first {K V} `{Countable K} (p : V -> bool) (t : gmap K V)
  : option (K * V) :=
  List.find (fun kv => p kv.2) (map_to_list t).

(** [db.session.get(User, ident)]: the primary key is text. *)
Definition session_get_User (ident : pyval) : M (option (string * User)) :=
  w <- get_world ;;
  ret (match ident with
       | PStr s => pair s <$> users w !! s
       | _ => None
       end).

(** What a BIGINT column holds: the integers of 64 bits. *)
Definition BIGINT (n : Z) : bool := (- 2 ^ 63 <=? n)%Z && (n <? 2 ^ 63)%Z.

(** [db.session.get(Product, ident)]: the primary key is a BIGINT; text
    is read as the storage layer reads it; an integer that is no BIGINT
    names no row, and the driver may refuse it. *)
Definition session_get_Product (ident : pyval) : M (option (Z * Product)) :=
  w <- get_world ;;
  match ident with
  | PInt n =>
      if BIGINT n then ret (pair n <$> products w !! n)
      else if refuses_big_keys then raise StoreError
      else ret None
  | PStr s => ret (match bigint_of_text s with
                   | Some n => pair n <$> products w !! n
                   | None => None
                   end)
  | _ => ret None
  end.

(** The foreign key [category_id] of a product is a BIGINT column, as the
    key it refers to: no engine stores another integer in it. *)
Definition fits (wr : write) : bool :=
  match wr with
  | AddProduct p | MergeProduct (_, p) =>
      match category_id p with
      | PInt n => BIGINT n
      | _ => true
      end
  | MergeUser _ | DeleteProduct _ => true
  end.

(** The store takes a write when its values fit their columns and the
    engine's constraints hold. *)
Definition store_accepts (w : World) (wr : write) : bool :=
  fits wr && engine_accepts (users w) (products w) wr.

(** [db.session.commit()] of one pending write: a write that the store
    does not take raises, and the tables stay as they are. *)
Definition commit (wr : write) : M unit :=
  fun w => if store_accepts w wr then (Return tt, w) else (Raise StoreError, w).

(** [db.session.merge(user); db.session.commit()]: insert, or replace the
    row of the same primary key. *)
Definition merge_User (u : string * User) : M unit :=
  commit (MergeUser u) ;;;
  w <- get_world ;; set_users (<[u.1 := u.2]> (users w)).

Definition merge_Product (p : Z * Product) : M unit :=
  commit (MergeProduct p) ;;;
  w <- get_world ;; set_products (<[p.1 := p.2]> (products w)).

(** [db.session.add(product); db.session.commit()] of a product without a
    key: the table gives it a key that no row has. *)
Definition add_Product (p : Product) : M unit :=
  commit (AddProduct p) ;;;
  w <- get_world ;;
  let key := fresh (dom (products w)) in
  set_products (<[key := p]> (products w)).

(** [db.session.delete(product); db.session.commit()] *)
Definition delete_Product (p : Z * Product) : M unit :=
  commit (DeleteProduct p) ;;;
  w <- get_world ;; set_products (delete p.1 (products w)).

(** *** Registration and login *)

Definition REGISTER_SCHEMA : Schema :=
  [("user_name", And_str_len); ("password", And_str_len);
   ("phone", And_str_len); ("email", And_str_len_is_email)].

Definition register_route (req : Request) : M Response :=
  j <- request_json req ;;
  match j with
  | JDict _ =>
      c <- copy j ;;
      match validate REGISTER_SCHEMA c with
      | inl error => ret (StatusMessage "Bad request" error, 400)
      | inr request =>
          email_ <- getitem request "email" ;;
          user_name_ <- getitem request "user_name" ;;
          password <- getitem request "password" ;;
          phone_ <- getitem request "phone" ;;
          w <- get_world ;;
          match query_first (fun u => py_eq (email u) email_) (users w) with
          | Some _ => ret (Status "Email is already exsit", 409)
          | None =>
              user_id_ <- draw uuid4 ;;
              pw <- encode password ;;
              salt <- draw gensalt ;;
              match hashpw pw salt with
              | None => raise ValueError
              | Some hashed =>
                  let user := (user_id_,
                               mkUser user_name_ phone_ (PInt UserRole.user) email_
                                 PNone (PStr hashed)) in
                  merge_User user ;;;
                  stored <- session_get_User (PStr user.1) ;;
                  match stored with
                  | Some user =>
                      tok <- create_token default_expires_in (User_to_dict user) ;;
                      ret (jsonify (Token tok))
                  | None => raise AttributeError
                  end
              end
          end
      end
  | _ => ret (Status "Bad request", 400)
  end.

Definition LOGIN_SCHEMA : Schema :=
  [("user_name", And_str_len); ("password", And_str_len)].

Definition login_route (req : Request) : M Response :=
  j <- request_json req ;;
  match j with
  | JDict _ =>
      c <- copy j ;;
      match validate LOGIN_SCHEMA c with
      | inl error => ret (StatusMessage "Bad request" error, 400)
      | inr request =>
          user_name_ <- getitem request "user_name" ;;
          password <- getitem request "password" ;;
          w <- get_world ;;
          match query_first (fun u => py_eq (user_name u) user_name_) (users w) with
          | None => ret (Status "Unauthorized", 401)
          | Some user =>
              pw <- encode password ;;
              hashed <- encode (hash user.2) ;;
              match checkpw pw hashed with
              | None => raise ValueError
              | Some false => ret (Status "Unauthorized", 401)
              | Some true => tok <- create_token default_expires_in (User_to_dict user) ;;
                             ret (jsonify (Token tok))
              end
          end
      end
  | _ => ret (Status "Bad request", 400)
  end.

(** The function that [token_required] wraps into [current_user_route]. *)
Definition current_user_route_body (g : G) (req : Request) : M Response :=
  current_user_id <- getitem (token g) "user_id" ;;
  current_user <- session_get_User current_user_id ;;
  match current_user with
  | Some u => ret (jsonify (Json (User_to_dict u)))
  | None => raise AttributeError
  end.

Definition current_user_route : Request -> M Response :=
  token_required current_user_route_body.

(** *** Products *)

Definition CREATE_PRODUCT_SCHEMA : Schema :=
  [("product_name", And_str_len); ("picture", And_str_len);
   ("selling_price", And_Use_float_ge0); ("description", And_str_len);
   ("category_id", And_Use_int_ge0)].

Definition success : Response := jsonify (Message "success").

Definition create_product_route_body (g : G) (req : Request) : M Response :=
  j <- request_json req ;;
  c <- copy j ;;
  match validate CREATE_PRODUCT_SCHEMA c with
  | inl error => ret (StatusMessage "Bad request" error, 400)
  | inr request =>
      product_name_ <- getitem request "product_name" ;;
      picture_ <- getitem request "picture" ;;
      selling_price_ <- getitem request "selling_price" ;;
      description_ <- getitem request "description" ;;
      category_id_ <- getitem request "category_id" ;;
      user_id_ <- getitem (token g) "user_id" ;;
      add_Product (mkProduct product_name_ picture_ selling_price_
                     description_ (PInt 0) user_id_ category_id_) ;;;
      ret success
  end.

Definition create_product_route : Request -> M Response :=
  token_required create_product_route_body.

Definition UPDATE_PRODUCT_SCHEMA : Schema :=
  [("product_id", And_Use_int_ge0);
   ("product_name", And_str_len); ("picture", And_str_len);
   ("selling_price", And_Use_float_ge0); ("description", And_str_len);
   ("category_id", And_Use_int_ge0)].

(** One turn of the loop [for k in request] of [update_product_route],
    where [v] is [request[k]]. *)
Definition assign (k : string) (v : pyval) (product : Product) : Product :=
  let '(mkProduct n pic price d a u c) := product in
  if String.eqb k "product_name" then mkProduct v pic price d a u c
  else if String.eqb k "picture" then mkProduct n v price d a u c
  else if String.eqb k "selling_price" then mkProduct n pic v d a u c
  else if String.eqb k "description" then mkProduct n pic price v a u c
  else if String.eqb k "category_id" then mkProduct n pic price d a u v
  else product.

Definition update_product_route_body (g : G) (req : Request) : M Response :=
  j <- request_json req ;;
  c <- copy j ;;
  match validate UPDATE_PRODUCT_SCHEMA c with
  | inl error => ret (StatusMessage "Bad request" error, 400)
  | inr request =>
      current_user_id <- getitem (token g) "user_id" ;;
      wanted <- getitem request "product_id" ;;
      found <- session_get_Product wanted ;;
      match found with
      | None => ret (Status "Not Found", 404)
      | Some product =>
          if py_ne (p_user_id product.2) current_user_id
          then ret (Status "Permission denied", 401)
          else
            merge_Product (product.1, map_fold assign product.2 request) ;;;
            ret success
      end
  end.

Definition update_product_route : Request -> M Response :=
  token_required update_product_route_body.

Definition delete_product_route_body (product_id_ : string) (g : G) (req : Request)
  : M Response :=
  found <- session_get_Product (PStr product_id_) ;;
  match found with
  | None => ret (Status "Not Found", 404)
  | Some product =>
      current_user_id <- getitem (token g) "user_id" ;;
      if py_ne (p_user_id product.2) current_user_id
      then ret (Status "Permission denied", 401)
      else
        delete_Product product ;;;
        ret success
  end.

Definition delete_product_route (product_id_ : string) : Request -> M Response :=
  token_required (delete_product_route_body product_id_).

(** *** The routes that only read *)

(** The table of categories. No handler writes it. *)
Variable categories : gmap Z Category.

(** [product.category]: the row that the foreign key [category_id] names,
    [None] when it names none. *)
Definition Product_category (p : Product) : option Category :=
  match category_id p with
  | PInt n => categories !! n
  | _ => None
  end.

(** [Product.to_dict] of the object with key [self.1] and row [self.2]. The
    last entry is [self.category.category_name], which raises on a product
    without a category. *)
Definition Product_to_dict (self : Z * Product) : result (gmap string pyval) :=
  match Product_category self.2 with
  | Some c =>
      Return (<["product_id" := PInt self.1]>
             (<["product_name" := product_name self.2]>
             (<["picture" := picture self.2]>
             (<["selling_price" := selling_price self.2]>
             (<["description" := description self.2]>
             (<["available" := available self.2]>
             (<["user_id" := p_user_id self.2]>
             (<["category" := category_name c]> ∅))))))))
  | None => Raise AttributeError
  end.

(** An answer that is a response of the other routes or a JSON list. *)
Inductive Reply :=
| One (r : Response)
| Many (l : list (gmap string pyval)) (code : Z).

(** The list comprehension over the rows of a query: the dicts in the order
    of the rows, or the first exception. *)
Fixpoint to_dicts {A} (to_dict : A -> result (gmap string pyval)) (rows : list A)
  : result (list (gmap string pyval)) :=
  match rows with
  | [] => Return []
  | m :: rows' =>
      match to_dict m with
      | Raise e => Raise e
      | Return d =>
          match to_dicts to_dict rows' with
          | Raise e => Raise e
          | Return ds => Return (d :: ds)
          end
      end
  end.

Definition get_products_route (req : Request) : M Reply :=
  w <- get_world ;;
  response <- lift (to_dicts Product_to_dict (map_to_list (products w))) ;;
  ret (Many response 200).

Definition get_product_route (product_id_ : string) (req : Request) : M Response :=
  found <- session_get_Product (PStr product_id_) ;;
  match found with
  | None => ret (Status "Not Found", 404)
  | Some product =>
      d <- lift (Product_to_dict product) ;;
      ret (jsonify (Json d))
  end.

(** [token_required(f)] around a function that answers with a list. *)
Definition token_required_list (f : G -> Request -> M Reply) (req : Request)
  : M Reply :=
  match authorization req with
  | None => ret (One Forbidden)
  | Some header =>
      match re_match_Bearer header with
      | None => ret (One Forbidden)
      | Some tok =>
          decoded <- attempt (jwt_decode tok (JWT_PUBLIC_KEY config) (JWT_ALGORITHM config)) ;;
          match decoded with
          | None => ret (One Forbidden)
          | Some claims => f (mkG claims) req
          end
      end
  end.

Definition get_categories_route_body (g : G) (req : Request) : M Reply :=
  response <- lift (to_dicts (fun m => Return (Category_to_dict m))
                      (map_to_list categories)) ;;
  ret (Many response 200).

Definition get_categories_route : Request -> M Reply :=
  token_required_list get_categories_route_body.

(** ** Vocabulary of the statements *)

(** No two rows of the users table hold the same email. *)
Definition unique_emails (us : gmap string User) : Prop :=
  forall k1 k2 u1 u2 e,
    us !! k1 = Some u1 -> us !! k2 = Some u2 ->
    email u1 = PStr e -> email u2 = PStr e -> k1 = k2.

(** The characters an address that [is_email] accepts is made of. *)
Definition address_char (c : ascii) : bool :=
  local_char c || is_char "@" c || is_char "|" c.

(** The request passes the guard in [w]: it carries a bearer token that
    [jwt.decode] accepts, with claims [claims], and the guard leaves [w1]. *)
Definition authenticated (req : Request) (w : World)
    (claims : gmap string pyval) (w1 : World) : Prop :=
  exists header tok,
    authorization req = Some header /\
    re_match_Bearer header = Some tok /\
    jwt_decode tok (JWT_PUBLIC_KEY config) (JWT_ALGORITHM config) w = (Return claims, w1).

(** The row after the loop of [update_product_route] has run over every key
    of [request]. *)
Definition updated (request : gmap string pyval) (p : Product) : Product :=
  mkProduct
    (default (product_name p) (request !! "product_name"))
    (default (picture p) (request !! "picture"))
    (default (selling_price p) (request !! "selling_price"))
    (default (description p) (request !! "description"))
    (available p)
    (p_user_id p)
    (default (category_id p) (request !! "category_id")).

(** The payload that [create_token] signs when the clock reads [t1] and
    then [t2]. *)
Definition token_payload (t1 t2 : Q) (expires_in : Z) (kwargs : gmap string pyval)
  : gmap string pyval :=
  kwargs ∪ <["iat" := PFloat t1]>
           (<["exp" := PFloat (t2 + inject_Z expires_in)%Q]> ∅).

(** The world after [n] more readings of the clock. *)
Definition after_ticks (n : nat) (w : World) : World :=
  mkWorld (users w) (products w) (n + ticks w) (draws w).

(** The world with its products table replaced. *)
Definition with_products (ps : gmap Z Product) (w : World) : World :=
  mkWorld (users w) ps (ticks w) (draws w).

Definition keys (s : Schema) : list string := map fst s.

End WithPlatform.



(** ** A concrete platform and a small world

    Used to evaluate the handlers on explicit requests. The clock reads
    1000.75 seconds first and one second more at every reading; tokens are
    looked up in a table; [bcrypt] takes every password; the store takes
    every write whose values fit their columns. *)

Module Demo.

Definition config : Config := mkConfig "private" "public" "RS256".

Definition alice : User :=
  mkUser (PStr "alice") (PStr "555") (PInt 0) (PStr "a@b.com") PNone
         (PStr "salt$pw123456").
Definition bob : User :=
  mkUser (PStr "bob") (PStr "777") (PInt 0) (PStr "bob@c.org") PNone
         (PStr "salt$hunter22").

Definition time (n : nat) : Q := Qmake (4003 + 4 * Z.of_nat n) 4.

(** The claims of a token issued to [alice], and of one issued to [bob],
    at the first two readings of the clock: iat is 1000.75 and exp is
    4601.75. *)
Definition alice_claims : gmap string pyval :=
  token_payload (time 0) (time 1) default_expires_in (User_to_dict ("u1", alice)).
Definition bob_claims : gmap string pyval :=
  token_payload (time 0) (time 1) default_expires_in (User_to_dict ("u2", bob)).

Definition lamp : Product :=
  mkProduct (PStr "Lamp") (PStr "lamp.png") (PFloat (5 # 1)) (PStr "A lamp")
            (PInt 0) (PStr "u1") (PInt 2).

Definition world : World :=
  mkWorld (<["u1" := alice]> (<["u2" := bob]> ∅)) (<[1 := lamp]> ∅) 0 0.

Definition platform : Platform := {|
  clock := time;
  uuid4 := fun _ => "u3";
  gensalt := fun _ => "salt";
  hashpw := fun pw salt => Some (salt ++ "$" ++ pw);
  checkpw := fun pw hashed => Some (String.eqb hashed ("salt$" ++ pw));
  jwt_encode := fun payload _ _ =>
    match payload !! "user_id" with
    | Some (PStr u) => "h." ++ u ++ ".s"
    | _ => "h..s"
    end;
  jws_verify := fun tok key algorithm =>
    if String.eqb key "public" && String.eqb algorithm "RS256" then
      if String.eqb tok "h.u1.s" then Some alice_claims
      else if String.eqb tok "h.u2.s" then Some bob_claims
      else None
    else None;
  int_of_str := fun s => if String.eqb s "1" then Some 1 else None;
  float_of_str := fun _ => None;
  bigint_of_text := fun s => if String.eqb s "1" then Some 1 else None;
  engine_accepts := fun _ _ _ => true;
  refuses_big_keys := false
|}.

Definition as_alice (body : option json) : Request :=
  mkRequest (Some "Bearer h.u1.s") body.
Definition as_bob (body : option json) : Request :=
  mkRequest (Some "Bearer h.u2.s") body.

(** A full update body for product 1. *)
Definition full_update : json :=
  JDict (<["product_id" := JInt 1]>
        (<["product_name" := JStr "Desk lamp"]>
        (<["picture" := JStr "desk.png"]>
        (<["selling_price" := JFloat (7 # 2)]>
        (<["description" := JStr "A desk lamp"]>
        (<["category_id" := JInt 3]> ∅)))))).

(** An update body with a proper subset of the create fields. *)
Definition partial_update : json :=
  JDict (<["product_id" := JInt 1]> (<["product_name" := JStr "Desk lamp"]> ∅)).

Definition new_product : json :=
  JDict (<["product_name" := JStr "Chair"]>
        (<["picture" := JStr "chair.png"]>
        (<["selling_price" := JInt 20]>
        (<["description" := JStr "A chair"]>
        (<["category_id" := JInt 1]> ∅))))).

Definition register_body (user_name_ password phone_ email_ : string) : json :=
  JDict (<["user_name" := JStr user_name_]>
        (<["password" := JStr password]>
        (<["phone" := JStr phone_]>
        (<["email" := JStr email_]> ∅)))).

Definition login_body (user_name_ password : string) : json :=
  JDict (<["user_name" := JStr user_name_]> (<["password" := JStr password]> ∅)).

(** A full update body whose price is negative. *)
Definition negative_price_update : json :=
  JDict (<["product_id" := JInt 1]>
        (<["product_name" := JStr "Desk lamp"]>
        (<["picture" := JStr "desk.png"]>
        (<["selling_price" := JInt (-1)]>
        (<["description" := JStr "A desk lamp"]>
        (<["category_id" := JInt 3]> ∅)))))).

(** A full update body whose category_id is 2^63, one beyond the largest
    BIGINT. *)
Definition huge_category_update : json :=
  JDict (<["product_id" := JInt 1]>
        (<["product_name" := JStr "Desk lamp"]>
        (<["picture" := JStr "desk.png"]>
        (<["selling_price" := JFloat (7 # 2)]>
        (<["description" := JStr "A desk lamp"]>
        (<["category_id" := JInt (2 ^ 63)]> ∅)))))).

(** A full update body whose price is the integer 10^400, beyond every
    double, and one whose price is 2^53 + 1, which is no double. *)
Definition price_update (price : Z) : json :=
  JDict (<["product_id" := JInt 1]>
        (<["product_name" := JStr "Desk lamp"]>
        (<["picture" := JStr "desk.png"]>
        (<["selling_price" := JInt price]>
        (<["description" := JStr "A desk lamp"]>
        (<["category_id" := JInt 3]> ∅)))))).

(** What [UPDATE_PRODUCT_SCHEMA] returns on [full_update]. *)
Definition full_update_request : gmap string pyval :=
  <["product_id" := PInt 1]>
  (<["product_name" := PStr "Desk lamp"]>
  (<["picture" := PStr "desk.png"]>
  (<["selling_price" := PFloat (7 # 2)]>
  (<["description" := PStr "A desk lamp"]>
  (<["category_id" := PInt 3]> ∅))))).

(** What the schemas return on [register_body] and [login_body]. *)
Definition register_request (user_name_ password phone_ email_ : string)
  : gmap string pyval :=
  <["user_name" := PStr user_name_]>
  (<["password" := PStr password]>
  (<["phone" := PStr phone_]>
  (<["email" := PStr email_]> ∅))).

Definition login_request (user_name_ password : string) : gmap string pyval :=
  <["user_name" := PStr user_name_]> (<["password" := PStr password]> ∅).

Definition anonymous (body : json) : Request := mkRequest None (Some body).

End Demo.

(** The same world with its categories, a product without a category, and
    a platform whose token table also holds the token of a third user. *)

Module Shop.

Definition categories : gmap Z Category :=
  <[1 := mkCategory (PStr "Furniture")]>
  (<[2 := mkCategory (PStr "Lighting")]>
  (<[3 := mkCategory (PStr "Office")]> ∅)).

(** A product whose category_id names no category. *)
Definition stool : Product :=
  mkProduct (PStr "Stool") (PStr "stool.png") (PFloat (9 # 1)) (PStr "A stool")
            (PInt 0) (PStr "u2") (PInt 9).

Definition world_with_stool : World :=
  mkWorld (users Demo.world) (<[5 := stool]> (products Demo.world)) 0 0.

(** carol, as the registration of
    [Demo.register_body "carol" "pw" "1" "c@d.io"] stores her. *)
Definition carol : User :=
  mkUser (PStr "carol") (PStr "1") (PInt UserRole.user) (PStr "c@d.io") PNone
         (PStr "salt$pw").

Definition carol_claims : gmap string pyval :=
  token_payload (Demo.time 0) (Demo.time 1) default_expires_in
    (User_to_dict ("u3", carol)).

Definition platform : Platform := {|
  clock := clock (Platform := Demo.platform);
  uuid4 := uuid4 (Platform := Demo.platform);
  gensalt := gensalt (Platform := Demo.platform);
  hashpw := hashpw (Platform := Demo.platform);
  checkpw := checkpw (Platform := Demo.platform);
  jwt_encode := jwt_encode (Platform := Demo.platform);
  jws_verify := fun tok key algorithm =>
    if String.eqb key "public" && String.eqb algorithm "RS256"
       && String.eqb tok "h.u3.s"
    then Some carol_claims
    else jws_verify (Platform := Demo.platform) tok key algorithm;
  int_of_str := int_of_str (Platform := Demo.platform);
  float_of_str := float_of_str (Platform := Demo.platform);
  bigint_of_text := bigint_of_text (Platform := Demo.platform);
  engine_accepts := engine_accepts (Platform := Demo.platform);
  refuses_big_keys := refuses_big_keys (Platform := Demo.platform)
|}.

End Shop.

(** The demo platform with the [bcrypt] of version 5, which raises on a
    password of more than 72 bytes, with a driver that refuses keys beyond
    64 bits, and with a clock that stands at 1000.5 for two readings and
    reads 4600.25 from then on. *)

Module Strict.

Definition short (pw : string) : bool := Nat.leb (String.length pw) 72.

Definition time (n : nat) : Q :=
  match n with
  | 0%nat | 1%nat => 2001 # 2
  | _ => 18401 # 4
  end.

(** The claims of the token that a login of alice gets at the first two
    readings of this clock. *)
Definition alice_claims : gmap string pyval :=
  token_payload (time 0) (time 1) default_expires_in
    (User_to_dict ("u1", Demo.alice)).

Definition platform : Platform := {|
  clock := time;
  uuid4 := uuid4 (Platform := Demo.platform);
  gensalt := gensalt (Platform := Demo.platform);
  hashpw := fun pw salt =>
    if short pw then hashpw (Platform := Demo.platform) pw salt else None;
  checkpw := fun pw hashed =>
    if short pw then checkpw (Platform := Demo.platform) pw hashed else None;
  jwt_encode := jwt_encode (Platform := Demo.platform);
  jws_verify := fun tok key algorithm =>
    if String.eqb key "public" && String.eqb algorithm "RS256"
       && String.eqb tok "h.u1.s"
    then Some alice_claims
    else None;
  int_of_str := int_of_str (Platform := Demo.platform);
  float_of_str := float_of_str (Platform := Demo.platform);
  bigint_of_text := bigint_of_text (Platform := Demo.platform);
  engine_accepts := engine_accepts (Platform := Demo.platform);
  refuses_big_keys := true
|}.

(** A password of 73 characters. *)
Definition long_password : string :=
  "0123456789012345678901234567890123456789012345678901234567890123456789012".

End Strict.


(** * Properties *)

(** A closed goal is settled by evaluating both of its sides. *)
Ltac evaluate :=
  lazymatch goal with
  | |- _ = _ => first [reflexivity | by vm_compute]
  | |- _ => by vm_compute
  end.

Section Properties.
Context {platform : Platform}.
Variable config : Config.

Abbreviation public_key := (JWT_PUBLIC_KEY config).
Abbreviation private_key := (JWT_PRIVATE_KEY config).
Abbreviation algorithm := (JWT_ALGORITHM config).

(** ** The monad *)

Lemma bind_Return {A B} (m : M A) (k : A -> M B) w a w' :
  m w = (Return a, w') -> bind m k w = k a w'.
Proof. intros E. unfold bind. by rewrite E. Qed.

Lemma bind_Raise {A B} (m : M A) (k : A -> M B) w e w' :
  m w = (Raise e, w') -> bind m k w = (Raise e, w').
Proof. intros E. unfold bind. by rewrite E. Qed.

Lemma getitem_Some {V} (d : gmap string V) k v w :
  d !! k = Some v -> getitem d k w = (Return v, w).
Proof. intros E. unfold getitem. by rewrite E. Qed.

(** ** The token library *)

(** Decoding a token touches neither table and draws no randomness; it
    reads the clock at most once. *)
Lemma jwt_decode_frame tok key alg w r w' :
  jwt_decode tok key alg w = (r, w') ->
  users w' = users w /\ products w' = products w /\ draws w' = draws w /\
  (w' = w \/ w' = after_ticks 1 w).
Proof.
  unfold jwt_decode. destruct (enough_segments tok); [|intros [= <- <-]; auto].
  destruct (jws_verify tok key alg) as [payload|]; [|intros [= <- <-]; auto].
  unfold bind, now, validate_iat, validate_exp, lift, ret, raise.
  intros E.
  assert (w' = after_ticks 1 w) as ->; [|cbn; auto].
  revert E. unfold after_ticks. cbn.
  destruct (payload !! "iat") as [v|]; cbn;
    [destruct (py_int_or _ v); cbn; [destruct (Qle_bool _ _); cbn|]|];
    try (intros [= <- <-]; reflexivity);
    (destruct (payload !! "exp") as [v'|]; cbn;
      [destruct (py_int_or _ v'); cbn; [destruct (Qle_bool _ _); cbn|]|]);
    intros [= <- <-]; reflexivity.
Qed.

Lemma authenticated_frame req w claims w1 :
  authenticated config req w claims w1 ->
  users w1 = users w /\ products w1 = products w /\ draws w1 = draws w.
Proof.
  intros (h & tok & _ & _ & E). apply jwt_decode_frame in E. tauto.
Qed.

(** The guard hands an authenticated request to the wrapped function. *)
Lemma token_required_authenticated f req w claims w1 :
  authenticated config req w claims w1 ->
  token_required config f req w = f (mkG claims) req w1.
Proof.
  intros (h & tok & Eh & Em & E). unfold token_required.
  rewrite Eh, Em. unfold bind, attempt. by rewrite E.
Qed.

(** A response other than the guard's own comes from the wrapped function,
    run on an authenticated request. *)
Lemma token_required_inv f req w r w' :
  token_required config f req w = (r, w') ->
  r <> Return Forbidden ->
  exists claims w1, authenticated config req w claims w1 /\ f (mkG claims) req w1 = (r, w').
Proof.
  unfold token_required, authenticated.
  destruct (authorization req) as [h|]; [|intros [= <- <-] N; by destruct N].
  destruct (re_match_Bearer h) as [tok|] eqn:Em; [|intros [= <- <-] N; by destruct N].
  unfold bind, attempt.
  destruct (jwt_decode tok public_key algorithm w) as [[claims|e] w1] eqn:E;
    [|intros [= <- <-] N; by destruct N].
  intros Ef _. exists claims, w1. eauto 10.
Qed.

(** ** The schema library *)

(** Every entry of the validated dict is the validated value of the data
    under a key of the schema. *)
Lemma validate_items_sound s d new k x :
  validate_items s d = Some new -> new !! k = Some x ->
  exists v j, In (k, v) s /\ d !! k = Some j /\ validate_value v j = Some x.
Proof.
  revert new. induction s as [|[k0 v0] s IH]; intros new; cbn.
  - intros [= <-]. by rewrite lookup_empty.
  - destruct (validate_items s d) as [new'|]; [|done].
    destruct (d !! k0) as [j0|] eqn:Ed.
    + destruct (validate_value v0 j0) as [x0|] eqn:Ev; [|done].
      intros [= <-]. destruct (decide (k0 = k)) as [->|Hne].
      * rewrite lookup_insert_eq. intros [= <-]. exists v0, j0. auto.
      * rewrite lookup_insert_ne by done. intros Hk.
        destruct (IH new' eq_refl Hk) as (v & j & ? & ? & ?). exists v, j. auto.
    + intros [= <-] Hk.
      destruct (IH new' eq_refl Hk) as (v & j & ? & ? & ?). exists v, j. auto.
Qed.

(** Every key of the schema that the data has is in the validated dict. *)
Lemma validate_items_complete s d new k v :
  validate_items s d = Some new -> In (k, v) s -> is_Some (d !! k) ->
  is_Some (new !! k).
Proof.
  revert new. induction s as [|[k0 v0] s IH]; intros new; cbn; [done|].
  destruct (validate_items s d) as [new'|]; [|done].
  intros E [[= -> ->]|Hin] Hd.
  - destruct Hd as [j Hd]. rewrite Hd in E.
    destruct (validate_value v j); [|done].
    injection E as <-. rewrite lookup_insert_eq. eauto.
  - specialize (IH new' eq_refl Hin Hd).
    destruct (d !! k0); [destruct (validate_value v0 j); [|done]|];
      injection E as <-; [|done].
    destruct (decide (k0 = k)) as [->|Hne];
      [rewrite lookup_insert_eq; eauto | by rewrite lookup_insert_ne].
Qed.

Lemma covered_spec s new :
  covered s new = true <-> forall k v, In (k, v) s -> is_Some (new !! k).
Proof.
  unfold covered. rewrite forallb_forall. split.
  - intros H k v Hin. specialize (H (k, v) Hin). by apply bool_decide_eq_true in H.
  - intros H [k v] Hin. apply bool_decide_eq_true. eauto.
Qed.

Lemma validate_inr s d r :
  validate s (JDict d) = inr r ->
  validate_items s d = Some r /\ covered s r = true /\ size r = size d.
Proof.
  unfold validate. destruct (validate_items s d) as [new|]; [|done].
  destruct (covered s new) eqn:Ec; cbn; [|done].
  destruct (Nat.eqb (size new) (size d)) eqn:Es; cbn; [|done].
  intros [= <-]. apply Nat.eqb_eq in Es. auto.
Qed.

(** A body that validates has, under every key of the schema, a value
    that the key's validator accepts; the validated dict holds what the
    validator returns. *)
Lemma validate_lookup s d r k v :
  NoDup (keys s) -> validate s (JDict d) = inr r -> In (k, v) s ->
  exists j x, d !! k = Some j /\ validate_value v j = Some x /\ r !! k = Some x.
Proof.
  intros Hnd Hv Hin. apply validate_inr in Hv as (Hi & Hc & _).
  destruct (proj1 (covered_spec s r) Hc k v Hin) as [x Hx].
  destruct (validate_items_sound _ _ _ _ _ Hi Hx) as (v' & j & Hin' & Hd & Hval).
  assert (v' = v) as ->; [|eauto].
  clear -Hnd Hin Hin'. unfold keys in Hnd.
  induction s as [|[k0 v0] s IH]; [done|].
  cbn in Hnd. apply NoDup_cons in Hnd as [Hnot Hnd].
  destruct Hin as [[= -> ->]|Hin], Hin' as [[= ?]|Hin']; subst; auto.
  - destruct Hnot. apply list_elem_of_In, in_map_iff. by exists (k, v').
  - destruct Hnot. apply list_elem_of_In, in_map_iff. by exists (k, v).
Qed.

(** A body that validates has no key beyond the schema's. *)
Lemma validate_no_extra s d r k :
  validate s (JDict d) = inr r -> is_Some (d !! k) -> In k (keys s).
Proof.
  intros Hv Hd. apply validate_inr in Hv as (Hi & _ & Hsz).
  assert (dom r ⊆ dom d) as Hsub.
  { intros k' [x Hx]%elem_of_dom.
    destruct (validate_items_sound _ _ _ _ _ Hi Hx) as (_ & j & _ & Hj & _).
    apply elem_of_dom. eauto. }
  assert (dom r = dom d) as Heq.
  { apply set_subseteq_size_eq; [done|]. rewrite !size_dom. lia. }
  assert (k ∈ dom r) as [x Hx]%elem_of_dom by (rewrite Heq; by apply elem_of_dom).
  destruct (validate_items_sound _ _ _ _ _ Hi Hx) as (v & _ & Hin & _).
  unfold keys. apply in_map_iff. by exists (k, v).
Qed.

(** A body that lacks a key of the schema, or has a key beyond them, is
    rejected. *)
Lemma validate_missing s d k :
  NoDup (keys s) -> In k (keys s) -> d !! k = None ->
  exists error, validate s (JDict d) = inl error.
Proof.
  intros Hnd Hin Hd. destruct (validate s (JDict d)) as [e|r] eqn:Hv; [eauto|].
  apply in_map_iff in Hin as ([k' v] & <- & Hin).
  destruct (validate_lookup _ _ _ _ _ Hnd Hv Hin) as (j & _ & Hj & _).
  cbn in Hj, Hd. congruence.
Qed.

Lemma validate_extra s d k :
  is_Some (d !! k) -> ~ In k (keys s) ->
  exists error, validate s (JDict d) = inl error.
Proof.
  intros Hd Hk. destruct (validate s (JDict d)) as [e|r] eqn:Hv; [eauto|].
  destruct Hk. eapply validate_no_extra; eauto.
Qed.

Lemma validate_value_And_str_len j x :
  validate_value And_str_len j = Some x -> exists s, j = JStr s /\ x = PStr s.
Proof.
  destruct j; cbn; try done. case_match; [|done]. intros [= <-]. eauto.
Qed.

Lemma validate_value_And_str_len_is_email j x :
  validate_value And_str_len_is_email j = Some x ->
  exists s, j = JStr s /\ x = PStr s /\ is_email s = true.
Proof.
  destruct j; cbn; try done.
  case_match eqn:E; [|done]. apply andb_true_iff in E as [_ E].
  intros [= <-]. eauto.
Qed.

Lemma validate_value_And_Use_int_ge0 j x :
  validate_value And_Use_int_ge0 j = Some x -> exists n, x = PInt n /\ 0 <= n.
Proof.
  cbn. destruct (int_of_json j) as [i|]; [|done].
  destruct (Z.leb 0 i) eqn:E; [|done]. intros [= <-]. exists i. split; [done|lia].
Qed.

(** ** The session *)

Lemma query_first_Some {K V} `{Countable K} (p : V -> bool) (t : gmap K V) k v :
  query_first p t = Some (k, v) -> t !! k = Some v /\ p v = true.
Proof.
  unfold query_first. intros [Hin Hp]%find_some.
  split; [|done]. by apply elem_of_map_to_list, list_elem_of_In.
Qed.

Lemma query_first_None {K V} `{Countable K} (p : V -> bool) (t : gmap K V) :
  query_first p t = None <-> forall k v, t !! k = Some v -> p v = false.
Proof.
  unfold query_first. split.
  - intros Hnone k v Hkv.
    apply (find_none _ _ Hnone (k, v)).
    by apply list_elem_of_In, elem_of_map_to_list.
  - intros Hall. destruct (find _ _) as [[k v]|] eqn:E; [|done].
    apply find_some in E as [Hin Hp]. cbn in Hp.
    apply list_elem_of_In, elem_of_map_to_list in Hin.
    rewrite (Hall _ _ Hin) in Hp. done.
Qed.

Lemma py_eq_PStr v s : py_eq v (PStr s) = true <-> v = PStr s.
Proof.
  destruct v; cbn; try (split; congruence).
  rewrite String.eqb_eq. split; congruence.
Qed.

Lemma NoDup_REGISTER_SCHEMA : NoDup (keys REGISTER_SCHEMA).
Proof. by apply (bool_decide_unpack _). Qed.
Lemma NoDup_LOGIN_SCHEMA : NoDup (keys LOGIN_SCHEMA).
Proof. by apply (bool_decide_unpack _). Qed.
Lemma NoDup_CREATE_PRODUCT_SCHEMA : NoDup (keys CREATE_PRODUCT_SCHEMA).
Proof. by apply (bool_decide_unpack _). Qed.
Lemma NoDup_UPDATE_PRODUCT_SCHEMA : NoDup (keys UPDATE_PRODUCT_SCHEMA).
Proof. by apply (bool_decide_unpack _). Qed.

(** What a validated login body holds. *)
Lemma validate_LOGIN d r :
  validate LOGIN_SCHEMA (JDict d) = inr r ->
  exists name pw,
    d !! "user_name" = Some (JStr name) /\ d !! "password" = Some (JStr pw) /\
    r !! "user_name" = Some (PStr name) /\ r !! "password" = Some (PStr pw).
Proof.
  intros Hv.
  destruct (validate_lookup _ _ _ "user_name" And_str_len NoDup_LOGIN_SCHEMA Hv)
    as (j1 & x1 & Hd1 & Hv1 & Hr1); [cbn; auto|].
  destruct (validate_lookup _ _ _ "password" And_str_len NoDup_LOGIN_SCHEMA Hv)
    as (j2 & x2 & Hd2 & Hv2 & Hr2); [cbn; auto|].
  apply validate_value_And_str_len in Hv1 as (name & -> & ->).
  apply validate_value_And_str_len in Hv2 as (pw & -> & ->).
  exists name, pw. auto.
Qed.

(** What a validated registration body holds. *)
Lemma validate_REGISTER d r :
  validate REGISTER_SCHEMA (JDict d) = inr r ->
  exists name pw ph e,
    (d !! "user_name" = Some (JStr name) /\ d !! "password" = Some (JStr pw) /\
     d !! "phone" = Some (JStr ph) /\ d !! "email" = Some (JStr e)) /\
    (r !! "user_name" = Some (PStr name) /\ r !! "password" = Some (PStr pw) /\
     r !! "phone" = Some (PStr ph) /\ r !! "email" = Some (PStr e)) /\
    is_email e = true.
Proof.
  intros Hv.
  destruct (validate_lookup _ _ _ "user_name" And_str_len NoDup_REGISTER_SCHEMA Hv)
    as (j1 & x1 & Hd1 & Hv1 & Hr1); [cbn; auto|].
  destruct (validate_lookup _ _ _ "password" And_str_len NoDup_REGISTER_SCHEMA Hv)
    as (j2 & x2 & Hd2 & Hv2 & Hr2); [cbn; auto|].
  destruct (validate_lookup _ _ _ "phone" And_str_len NoDup_REGISTER_SCHEMA Hv)
    as (j3 & x3 & Hd3 & Hv3 & Hr3); [cbn; auto|].
  destruct (validate_lookup _ _ _ "email" And_str_len_is_email NoDup_REGISTER_SCHEMA Hv)
    as (j4 & x4 & Hd4 & Hv4 & Hr4); [cbn; auto 6|].
  apply validate_value_And_str_len in Hv1 as (name & -> & ->).
  apply validate_value_And_str_len in Hv2 as (pw & -> & ->).
  apply validate_value_And_str_len in Hv3 as (ph & -> & ->).
  apply validate_value_And_str_len_is_email in Hv4 as (e & -> & -> & He).
  exists name, pw, ph, e. auto 10.
Qed.

(** ** Tokens *)

Lemma create_token_eq expires_in kwargs w :
  create_token config expires_in kwargs w =
  (Return (jwt_encode
             (token_payload (clock (ticks w)) (clock (S (ticks w))) expires_in kwargs)
             private_key algorithm),
   after_ticks 2 w).
Proof. reflexivity. Qed.

(** The payload of a token made from a user's [to_dict] has the six
    identity entries and no entry for the password hash. *)
Lemma token_payload_User t1 t2 expires_in (u : string * User) :
  let payload := token_payload t1 t2 expires_in (User_to_dict u) in
  payload !! "user_id" = Some (PStr u.1) /\
  payload !! "user_name" = Some (user_name u.2) /\
  payload !! "phone" = Some (phone u.2) /\
  payload !! "role" = Some (role u.2) /\
  payload !! "email" = Some (email u.2) /\
  payload !! "profile_picture" = Some (profile_picture u.2) /\
  payload !! "iat" = Some (PFloat t1) /\
  payload !! "exp" = Some (PFloat (t2 + inject_Z expires_in)%Q) /\
  payload !! "hash" = None.
Proof.
  unfold token_payload, User_to_dict. cbv zeta.
  repeat split; by (rewrite ?lookup_union_r by reflexivity; vm_compute).
Qed.

(** ** Registration and login *)

Local Arguments validate : simpl never.
Local Arguments query_first : simpl never.
Local Arguments store_accepts : simpl never.

(** How [register_route] runs on a body that validates. *)
Lemma register_route_valid req w d r name pw ph e :
  json_body req = Some (JDict d) ->
  validate REGISTER_SCHEMA (JDict d) = inr r ->
  r !! "user_name" = Some (PStr name) -> r !! "password" = Some (PStr pw) ->
  r !! "phone" = Some (PStr ph) -> r !! "email" = Some (PStr e) ->
  register_route config req w =
  match query_first (fun u => py_eq (email u) (PStr e)) (users w) with
  | Some _ => (Return (Status "Email is already exsit", 409), w)
  | None =>
      let drawn := mkWorld (users w) (products w) (ticks w) (2 + draws w) in
      match hashpw pw (gensalt (S (draws w))) with
      | None => (Raise ValueError, drawn)
      | Some hashed =>
          let user_id_ := uuid4 (draws w) in
          let user := mkUser (PStr name) (PStr ph) (PInt UserRole.user) (PStr e)
                        PNone (PStr hashed) in
          if store_accepts drawn (MergeUser (user_id_, user))
          then (Return (Token (jwt_encode
                                 (token_payload (clock (ticks w)) (clock (S (ticks w)))
                                    default_expires_in (User_to_dict (user_id_, user)))
                                 private_key algorithm), 200),
                mkWorld (<[user_id_ := user]> (users w)) (products w)
                        (2 + ticks w) (2 + draws w))
          else (Raise StoreError, drawn)
      end
  end.
Proof.
  intros Hj Hv Hn Hp Hph He. unfold register_route, request_json.
  rewrite Hj.
  unfold merge_User, session_get_User, create_token.
  unfold bind, copy, ret, raise, getitem, get_world, draw, encode,
    commit, set_users, now, token_payload.
  cbn. rewrite Hv, He; cbn. rewrite Hn; cbn. rewrite Hp; cbn. rewrite Hph; cbn.
  destruct (query_first _ (users w)) as [found|]; [reflexivity|].
  cbn. destruct (hashpw pw _) as [hashed|]; [|reflexivity]. cbn.
  destruct (store_accepts _ _); [|reflexivity].
  cbn. rewrite lookup_insert_eq. reflexivity.
Qed.

(** How [login_route] runs on a body that validates. *)
Lemma login_route_valid req w d r name pw :
  json_body req = Some (JDict d) ->
  validate LOGIN_SCHEMA (JDict d) = inr r ->
  r !! "user_name" = Some (PStr name) -> r !! "password" = Some (PStr pw) ->
  login_route config req w =
  match query_first (fun u => py_eq (user_name u) (PStr name)) (users w) with
  | None => (Return (Status "Unauthorized", 401), w)
  | Some user =>
      match hash user.2 with
      | PStr hashed =>
          match checkpw pw hashed with
          | None => (Raise ValueError, w)
          | Some false => (Return (Status "Unauthorized", 401), w)
          | Some true =>
              (Return (Token (jwt_encode
                                (token_payload (clock (ticks w)) (clock (S (ticks w)))
                                   default_expires_in (User_to_dict user))
                                private_key algorithm), 200),
               after_ticks 2 w)
          end
      | _ => (Raise AttributeError, w)
      end
  end.
Proof.
  intros Hj Hv Hn Hp. unfold login_route, request_json.
  rewrite Hj.
  unfold bind, copy, ret, raise, getitem, get_world, encode, create_token, now,
    token_payload.
  cbn. rewrite Hv, Hn; cbn. rewrite Hp; cbn.
  destruct (query_first _ (users w)) as [user|]; [|reflexivity].
  destruct (hash user.2); try reflexivity. cbn.
  destruct (checkpw pw s) as [[|]|]; reflexivity.
Qed.

(** How [register_route] runs on a dict that does not validate. *)
Lemma register_route_invalid req w d error :
  json_body req = Some (JDict d) ->
  validate REGISTER_SCHEMA (JDict d) = inl error ->
  register_route config req w = (Return (StatusMessage "Bad request" error, 400), w).
Proof.
  intros Hj Hv. unfold register_route, request_json. rewrite Hj.
  unfold bind, copy, ret. cbn. by rewrite Hv.
Qed.

Lemma login_route_invalid req w d error :
  json_body req = Some (JDict d) ->
  validate LOGIN_SCHEMA (JDict d) = inl error ->
  login_route config req w = (Return (StatusMessage "Bad request" error, 400), w).
Proof.
  intros Hj Hv. unfold login_route, request_json. rewrite Hj.
  unfold bind, copy, ret. cbn. by rewrite Hv.
Qed.

(** A registration that answers with a token has stored the user whose
    [to_dict] the token is made from. *)
Lemma register_route_Token req w t code w' :
  register_route config req w = (Return (Token t, code), w') ->
  exists u : string * User,
    t = jwt_encode
          (token_payload (clock (ticks w)) (clock (S (ticks w))) default_expires_in
             (User_to_dict u))
          private_key algorithm /\
    users w' !! u.1 = Some u.2.
Proof.
  destruct (json_body req) as [j|] eqn:Hj;
    [|unfold register_route, request_json; rewrite Hj; discriminate].
  destruct j as [| | | | | |d];
    try (unfold register_route, request_json; rewrite Hj; discriminate).
  destruct (validate REGISTER_SCHEMA (JDict d)) as [error|r] eqn:Hv.
  { by rewrite (register_route_invalid _ _ _ _ Hj Hv). }
  destruct (validate_REGISTER _ _ Hv) as (name & pw & ph & e & _ & (Hn & Hp & Hph & He) & _).
  rewrite (register_route_valid _ _ _ _ _ _ _ _ Hj Hv Hn Hp Hph He).
  destruct (query_first _ _); [discriminate|].
  destruct (hashpw pw _) as [hashed|]; [|discriminate]. cbv zeta.
  destruct (store_accepts _ _); [|discriminate].
  intros [= <- <- <-]. eexists (_, _). split; [reflexivity|].
  cbn. apply lookup_insert_eq.
Qed.

(** A login that answers with a token makes it from the [to_dict] of a
    stored user. *)
Lemma login_route_Token req w t code w' :
  login_route config req w = (Return (Token t, code), w') ->
  exists u : string * User,
    t = jwt_encode
          (token_payload (clock (ticks w)) (clock (S (ticks w))) default_expires_in
             (User_to_dict u))
          private_key algorithm /\
    users w' !! u.1 = Some u.2.
Proof.
  destruct (json_body req) as [j|] eqn:Hj;
    [|unfold login_route, request_json; rewrite Hj; discriminate].
  destruct j as [| | | | | |d];
    try (unfold login_route, request_json; rewrite Hj; discriminate).
  destruct (validate LOGIN_SCHEMA (JDict d)) as [error|r] eqn:Hv.
  { by rewrite (login_route_invalid _ _ _ _ Hj Hv). }
  destruct (validate_LOGIN _ _ Hv) as (name & pw & _ & _ & Hn & Hp).
  rewrite (login_route_valid _ _ _ _ _ _ Hj Hv Hn Hp).
  destruct (query_first _ _) as [[k u]|] eqn:Hq; [|discriminate].
  apply query_first_Some in Hq as [Hk _]. cbn.
  destruct (hash u); try discriminate.
  destruct (checkpw pw s) as [[|]|]; try discriminate.
  intros [= <- <- <-]. exists (k, u). split; [reflexivity|done].
Qed.

(** C3. A token that the registration flow or the login flow answers
    with is the encoding of a payload made for a stored user: under user_id
    it holds the key of that user, and under user_name, phone, role, email
    and profile_picture the values of these columns of the user's row. Its
    only other entries are iat and exp: it has no entry for the password
    hash. *)
Theorem issued_token_claims (req : Request) (w : World) (t : string) (code : Z)
    (w' : World) :
  register_route config req w = (Return (Token t, code), w') \/
  login_route config req w = (Return (Token t, code), w') ->
  exists (k : string) (u : User) payload,
    users w' !! k = Some u /\
    t = jwt_encode payload private_key algorithm /\
    payload !! "user_id" = Some (PStr k) /\
    payload !! "user_name" = Some (user_name u) /\
    payload !! "phone" = Some (phone u) /\
    payload !! "role" = Some (role u) /\
    payload !! "email" = Some (email u) /\
    payload !! "profile_picture" = Some (profile_picture u) /\
    dom payload = list_to_set ["iat"; "exp"; "user_id"; "user_name"; "phone";
                               "role"; "email"; "profile_picture"] /\
    payload !! "hash" = None.
Proof.
  intros H.
  assert (exists u : string * User,
             t = jwt_encode
                   (token_payload (clock (ticks w)) (clock (S (ticks w)))
                      default_expires_in (User_to_dict u))
                   private_key algorithm /\
             users w' !! u.1 = Some u.2) as ([k u] & -> & Hu).
  { destruct H as [H|H];
      [apply register_route_Token in H | apply login_route_Token in H]; done. }
  exists k, u. eexists. split; [done|]. split; [reflexivity|].
  destruct (token_payload_User (clock (ticks w)) (clock (S (ticks w)))
              default_expires_in (k, u))
    as (H1 & H2 & H3 & H4 & H5 & H6 & _ & _ & H9).
  repeat (split; [assumption|]).
  split; [|assumption].
  unfold token_payload, User_to_dict. evaluate.
Qed.

(** C5, as amended. A registration whose body passes [REGISTER_SCHEMA]
    and whose email is the email of a stored user gets status 409, and the
    world is left as it was: no row is inserted and none is changed. *)
Theorem register_existing_email (req : Request) (w : World)
    (d : gmap string json) (r : gmap string pyval) (e : string) :
  json_body req = Some (JDict d) ->
  validate REGISTER_SCHEMA (JDict d) = inr r ->
  d !! "email" = Some (JStr e) ->
  (exists k u, users w !! k = Some u /\ email u = PStr e) ->
  register_route config req w = (Return (Status "Email is already exsit", 409), w).
Proof.
  intros Hj Hv Hd (k & u & Hk & Hu).
  destruct (validate_REGISTER _ _ Hv)
    as (name & pw & ph & e' & (_ & _ & _ & Hd') & (Hn & Hp & Hph & He) & _).
  assert (e' = e) as -> by congruence.
  rewrite (register_route_valid _ _ _ _ _ _ _ _ Hj Hv Hn Hp Hph He).
  destruct (query_first _ _) eqn:Hq; [done|].
  pose proof (proj1 (query_first_None _ _) Hq k u Hk) as Hf. cbn in Hf.
  rewrite Hu in Hf. cbn in Hf. by rewrite String.eqb_refl in Hf.
Qed.

(** C6. On a body that passes [LOGIN_SCHEMA], the login answers 401 with
    the body of status Unauthorized and leaves the world as it was when no
    stored user has the given user_name, and equally when the password
    check against the stored hash returns false. When the check raises
    instead, as [bcrypt] 5 does on a password of more than 72 bytes, the
    login of a stored user raises [ValueError] and returns no response,
    where the login of an unknown user_name with the same password still
    gets 401: there the two failures can be told apart. *)
Theorem login_failure_outcomes (req : Request) (w : World)
    (d : gmap string json) (r : gmap string pyval) (name pw : string) :
  json_body req = Some (JDict d) ->
  validate LOGIN_SCHEMA (JDict d) = inr r ->
  d !! "user_name" = Some (JStr name) ->
  d !! "password" = Some (JStr pw) ->
  ((forall k u, users w !! k = Some u -> user_name u <> PStr name) ->
   login_route config req w = (Return (Status "Unauthorized", 401), w)) /\
  (forall k u hashed,
      query_first (fun u => py_eq (user_name u) (PStr name)) (users w) = Some (k, u) ->
      hash u = PStr hashed ->
      (checkpw pw hashed = Some false ->
       login_route config req w = (Return (Status "Unauthorized", 401), w)) /\
      (checkpw pw hashed = None ->
       login_route config req w = (Raise ValueError, w))).
Proof.
  intros Hj Hv Hdn Hdp.
  destruct (validate_LOGIN _ _ Hv) as (name' & pw' & Hdn' & Hdp' & Hn & Hp).
  assert (name' = name) as -> by congruence.
  assert (pw' = pw) as -> by congruence.
  rewrite (login_route_valid _ _ _ _ _ _ Hj Hv Hn Hp).
  split.
  - intros Hnone.
    destruct (query_first _ _) as [[k u]|] eqn:Hq; [|done].
    apply query_first_Some in Hq as [Hk Hu%py_eq_PStr]. by destruct (Hnone k u Hk).
  - intros k u hashed Hq Hh. rewrite Hq. cbn. rewrite Hh.
    split; intros Hc; by rewrite Hc.
Qed.

(** C9. Whatever the request, a run of the registration either leaves the
    users table as it was or adds one row: its key, the user_id, is the
    text of the UUID drawn from the generator, which the body has no part
    in, and its role is the role of a user, 0, not that of an admin. A body
    with a key beyond those of [REGISTER_SCHEMA] is answered with status
    400 and the world is left as it was. *)
Theorem register_user_id_and_role (req : Request) (w : World)
    (res : result Response) (w' : World) :
  register_route config req w = (res, w') ->
  match res with
  | Return (Token _, _) =>
      exists u, users w' = <[uuid4 (draws w) := u]> (users w) /\
                role u = PInt UserRole.user /\ role u <> PInt UserRole.admin
  | _ => users w' = users w
  end /\
  (forall d k,
      json_body req = Some (JDict d) -> is_Some (d !! k) ->
      ~ In k (keys REGISTER_SCHEMA) ->
      exists error, res = Return (StatusMessage "Bad request" error, 400) /\ w' = w).
Proof.
  intros Hrun. split.
  - destruct (json_body req) as [j|] eqn:Hj;
      [|unfold register_route, request_json in Hrun; rewrite Hj in Hrun;
        injection Hrun as <- <-; auto].
    destruct j as [| | | | | |d];
      try (unfold register_route, request_json in Hrun; rewrite Hj in Hrun;
           injection Hrun as <- <-; auto).
    destruct (validate REGISTER_SCHEMA (JDict d)) as [error|r] eqn:Hv.
    { rewrite (register_route_invalid _ _ _ _ Hj Hv) in Hrun.
      injection Hrun as <- <-; auto. }
    destruct (validate_REGISTER _ _ Hv)
      as (name & pw & ph & e & _ & (Hn & Hp & Hph & He) & _).
    rewrite (register_route_valid _ _ _ _ _ _ _ _ Hj Hv Hn Hp Hph He) in Hrun.
    destruct (query_first _ _); [injection Hrun as <- <-; auto|].
    destruct (hashpw pw _) as [hashed|]; [|injection Hrun as <- <-; auto].
    cbv zeta in Hrun.
    destruct (store_accepts _ _); injection Hrun as <- <-; [|auto].
    cbn. eexists. split; [reflexivity|]. cbn. split; [done|discriminate].
  - intros d k Hj Hd Hk.
    destruct (validate_extra REGISTER_SCHEMA d k Hd Hk) as [error Hv].
    rewrite (register_route_invalid _ _ _ _ Hj Hv) in Hrun.
    injection Hrun as <- <-. eauto.
Qed.

(** ** Products *)

(** The loop of [update_product_route] sets each of the five fields whose
    key the request has and leaves the others; the order in which the keys
    come does not matter. *)
Lemma update_loop request p : map_fold assign p request = updated request p.
Proof.
  apply (map_fold_weak_ind (fun r m => r = updated m p)).
  - by destruct p.
  - intros k v m r Hk ->. unfold assign, updated. destruct p as [n pic price d a u c].
    cbn.
    repeat match goal with
    | |- context [String.eqb k ?s] =>
        destruct (String.eqb_spec k s) as [->|];
        [rewrite ?lookup_insert_eq, ?Hk; rewrite ?lookup_insert_ne by done; reflexivity|]
    end.
    by rewrite !lookup_insert_ne by done.
Qed.

(** What a validated update body holds. *)
Lemma validate_UPDATE d r :
  validate UPDATE_PRODUCT_SCHEMA (JDict d) = inr r ->
  exists pid n pic price desc cat,
    r !! "product_id" = Some (PInt pid) /\
    r !! "product_name" = Some n /\ r !! "picture" = Some pic /\
    r !! "selling_price" = Some price /\ r !! "description" = Some desc /\
    r !! "category_id" = Some cat.
Proof.
  intros Hv.
  destruct (validate_lookup _ _ _ "product_id" And_Use_int_ge0
              NoDup_UPDATE_PRODUCT_SCHEMA Hv) as (j0 & y0 & _ & Hv0 & H0); [cbn; auto|].
  destruct (validate_lookup _ _ _ "product_name" And_str_len
              NoDup_UPDATE_PRODUCT_SCHEMA Hv) as (j1 & y1 & _ & _ & H1); [cbn; auto|].
  destruct (validate_lookup _ _ _ "picture" And_str_len
              NoDup_UPDATE_PRODUCT_SCHEMA Hv) as (j2 & y2 & _ & _ & H2); [cbn; auto|].
  destruct (validate_lookup _ _ _ "selling_price" And_Use_float_ge0
              NoDup_UPDATE_PRODUCT_SCHEMA Hv) as (j3 & y3 & _ & _ & H3); [cbn; auto 6|].
  destruct (validate_lookup _ _ _ "description" And_str_len
              NoDup_UPDATE_PRODUCT_SCHEMA Hv) as (j4 & y4 & _ & _ & H4); [cbn; auto 7|].
  destruct (validate_lookup _ _ _ "category_id" And_Use_int_ge0
              NoDup_UPDATE_PRODUCT_SCHEMA Hv) as (j5 & y5 & _ & _ & H5); [cbn; auto 8|].
  apply validate_value_And_Use_int_ge0 in Hv0 as (pid & -> & _).
  exists pid, y1, y2, y3, y4, y5. auto 10.
Qed.

(** How the update runs behind the guard on a body that validates. *)
Lemma update_product_route_body_valid g req w d r uid pid :
  json_body req = Some (JDict d) ->
  validate UPDATE_PRODUCT_SCHEMA (JDict d) = inr r ->
  token g !! "user_id" = Some uid ->
  r !! "product_id" = Some (PInt pid) ->
  BIGINT pid = true ->
  update_product_route_body g req w =
  match products w !! pid with
  | None => (Return (Status "Not Found", 404), w)
  | Some p =>
      if py_ne (p_user_id p) uid
      then (Return (Status "Permission denied", 401), w)
      else if store_accepts w (MergeProduct (pid, updated r p))
      then (Return (Message "success", 200),
            with_products (<[pid := updated r p]> (products w)) w)
      else (Raise StoreError, w)
  end.
Proof.
  intros Hj Hv Hu Hp Hbig. unfold update_product_route_body, request_json. rewrite Hj.
  unfold session_get_Product, merge_Product.
  unfold bind, copy, ret, raise, getitem, get_world, commit, set_products.
  cbn. rewrite Hv, Hu; cbn. rewrite Hp; cbn. rewrite Hbig.
  destruct (products w !! pid) as [p|]; [|reflexivity]. cbn.
  destruct (py_ne (p_user_id p) uid); [reflexivity|].
  rewrite update_loop. by destruct (store_accepts _ _).
Qed.

Lemma update_product_route_body_invalid g req w d error :
  json_body req = Some (JDict d) ->
  validate UPDATE_PRODUCT_SCHEMA (JDict d) = inl error ->
  update_product_route_body g req w =
  (Return (StatusMessage "Bad request" error, 400), w).
Proof.
  intros Hj Hv. unfold update_product_route_body, request_json. rewrite Hj.
  unfold bind, copy, ret. cbn. by rewrite Hv.
Qed.

(** How the deletion runs behind the guard on a stored product. *)
Lemma delete_product_route_body_found product_id_ g req w uid pid p :
  bigint_of_text product_id_ = Some pid ->
  products w !! pid = Some p ->
  token g !! "user_id" = Some uid ->
  delete_product_route_body product_id_ g req w =
  if py_ne (p_user_id p) uid
  then (Return (Status "Permission denied", 401), w)
  else if store_accepts w (DeleteProduct (pid, p))
  then (Return (Message "success", 200), with_products (delete pid (products w)) w)
  else (Raise StoreError, w).
Proof.
  intros Hb Hp Hu. unfold delete_product_route_body.
  unfold session_get_Product, delete_Product.
  unfold bind, ret, raise, getitem, get_world, commit, set_products.
  cbn. rewrite Hb, Hp; cbn. rewrite Hu; cbn.
  destruct (py_ne (p_user_id p) uid); [reflexivity|].
  by destruct (store_accepts _ _).
Qed.

(** C1, as amended. Let an authenticated request carry the identity
    [uid], and let [p] be the stored product with key [pid]. A PUT on
    /product whose body passes the validation and names [pid], and a DELETE
    on the path of [pid], get status 401 with the body of status Permission
    denied when the user_id of [p] differs from [uid], and the products
    table is as it was. When they are equal and the store takes the write,
    the answer is 200 with the message success, the PUT having stored the
    row with the request's fields and the DELETE having removed it; when
    the store refuses the write, the handler raises and the table is as it
    was. *)
Theorem owner_check (req : Request) (w : World) (claims : gmap string pyval)
    (w1 : World) (uid : pyval) (pid : Z) (p : Product) :
  authenticated config req w claims w1 ->
  claims !! "user_id" = Some uid ->
  products w !! pid = Some p ->
  BIGINT pid = true ->
  let denied := (Return (Status "Permission denied", 401), w1) in
  (forall d r,
      json_body req = Some (JDict d) ->
      validate UPDATE_PRODUCT_SCHEMA (JDict d) = inr r ->
      r !! "product_id" = Some (PInt pid) ->
      update_product_route config req w =
      if py_ne (p_user_id p) uid then denied
      else if store_accepts w (MergeProduct (pid, updated r p))
      then (Return (Message "success", 200),
            with_products (<[pid := updated r p]> (products w)) w1)
      else (Raise StoreError, w1)) /\
  (forall product_id_,
      bigint_of_text product_id_ = Some pid ->
      delete_product_route config product_id_ req w =
      if py_ne (p_user_id p) uid then denied
      else if store_accepts w (DeleteProduct (pid, p))
      then (Return (Message "success", 200),
            with_products (delete pid (products w)) w1)
      else (Raise StoreError, w1)) /\
  products w1 = products w.
Proof.
  intros Ha Hu Hp Hbig denied. subst denied.
  destruct (authenticated_frame _ _ _ _ Ha) as (Hus & Hps & _).
  assert (forall wr, store_accepts w1 wr = store_accepts w wr) as Hst.
  { intros wr. unfold store_accepts. by rewrite Hus, Hps. }
  split; [|split; [|done]].
  - intros d r Hj Hv Hpid. unfold update_product_route.
    rewrite (token_required_authenticated _ _ _ _ _ Ha).
    rewrite (update_product_route_body_valid (mkG claims) _ _ _ _ uid pid
               Hj Hv Hu Hpid Hbig).
    by rewrite Hps, Hp, Hst.
  - intros s Hb. unfold delete_product_route.
    rewrite (token_required_authenticated _ _ _ _ _ Ha).
    rewrite (delete_product_route_body_found _ (mkG claims) _ _ uid pid p Hb);
      [|by rewrite Hps|done].
    by rewrite Hps, Hst.
Qed.

(** C4. An authenticated PUT on /product whose body lacks one of the six
    keys of [UPDATE_PRODUCT_SCHEMA], the five create fields among them, is
    answered with status 400 and changes no table, whoever sends it; the
    loop over the keys of the request, which would set just the fields that
    are given, is not reached. *)
Theorem update_needs_every_field (req : Request) (w : World)
    (claims : gmap string pyval) (w1 : World) (d : gmap string json) (k : string) :
  authenticated config req w claims w1 ->
  json_body req = Some (JDict d) ->
  In k (keys UPDATE_PRODUCT_SCHEMA) ->
  d !! k = None ->
  exists error,
    update_product_route config req w =
    (Return (StatusMessage "Bad request" error, 400), w1) /\
    users w1 = users w /\ products w1 = products w.
Proof.
  intros Ha Hj Hk Hd.
  destruct (validate_missing _ _ _ NoDup_UPDATE_PRODUCT_SCHEMA Hk Hd) as [error Hv].
  destruct (authenticated_frame _ _ _ _ Ha) as (Hus & Hps & _).
  exists error. split; [|done]. unfold update_product_route.
  rewrite (token_required_authenticated _ _ _ _ _ Ha).
  by apply update_product_route_body_invalid with d.
Qed.

(** C8. A POST on /product that is answered with status 200 came through
    the guard with verified claims that hold a user_id, and has added one
    row to the products table, under a key that no row had: the user_id of
    that row is the user_id of the claims and its available field is 0,
    whatever the body holds. *)
Theorem create_product_owner (req : Request) (w : World) (body : Body) (w' : World) :
  create_product_route config req w = (Return (body, 200), w') ->
  exists claims w1 uid p,
    authenticated config req w claims w1 /\
    claims !! "user_id" = Some uid /\
    products w !! fresh (dom (products w)) = None /\
    products w' = <[fresh (dom (products w)) := p]> (products w) /\
    p_user_id p = uid /\
    available p = PInt 0.
Proof.
  intros Hrun. apply token_required_inv in Hrun as (claims & w1 & Ha & Ef);
    [|intros [=]].
  destruct (authenticated_frame _ _ _ _ Ha) as (_ & Hps & _).
  exists claims, w1.
  unfold create_product_route_body, request_json, add_Product in Ef.
  unfold bind, copy, ret, raise, getitem, commit, get_world, set_products in Ef.
  destruct (json_body req) as [[]|]; cbn in Ef; try discriminate;
    (destruct (validate CREATE_PRODUCT_SCHEMA _) as [error|r]; [discriminate|]);
    repeat match type of Ef with
           | context [match ?m !! ?k with _ => _ end] =>
               destruct (m !! k) eqn:?; cbn in Ef; try discriminate
           end;
    match type of Ef with
    | context [store_accepts ?a ?b] =>
        destruct (store_accepts a b); cbn in Ef; [|discriminate]
    end;
    injection Ef as <- <-.
  all: eexists _, _.
  all: split; [done|].
  all: split; [reflexivity|].
  all: split; [apply not_elem_of_dom, is_fresh|].
  all: cbn; rewrite Hps.
  all: split; [reflexivity|].
  all: split; reflexivity.
Qed.

(** C10. Behind the guard, with verified claims whose user_id is [uid],
    GET /currentUser answers 200 with the [to_dict] of the stored user of
    that key exactly when the users table has one; when it has none the
    handler raises [AttributeError] (it calls [to_dict] on [None]) and
    returns no response. The dict of a user has no entry for the hash. *)
Theorem current_user_needs_stored_user (req : Request) (w : World)
    (claims : gmap string pyval) (w1 : World) (uid : pyval) :
  authenticated config req w claims w1 ->
  claims !! "user_id" = Some uid ->
  current_user_route config req w =
    match (match uid with
           | PStr s => pair s <$> users w !! s
           | _ => None
           end) with
    | Some u => (Return (Json (User_to_dict u), 200), w1)
    | None => (Raise AttributeError, w1)
    end /\
  (forall u, User_to_dict u !! "hash" = None).
Proof.
  intros Ha Hu. split; [|intros u; evaluate].
  destruct (authenticated_frame _ _ _ _ Ha) as (Hus & _ & _).
  unfold current_user_route. rewrite (token_required_authenticated _ _ _ _ _ Ha).
  unfold current_user_route_body, bind, getitem, session_get_User, get_world, ret.
  cbn. rewrite Hu. cbn. rewrite Hus.
  destruct uid as [| | |s]; try reflexivity.
  by destruct (users w !! s).
Qed.

(** [int(x)] of a float that is not negative is its whole part: at most
    [x], and less than a second below it. *)
Lemma whole_spec (q : Q) :
  (0 <= q)%Q -> (inject_Z (whole q) <= q)%Q /\ (q < inject_Z (whole q + 1))%Q.
Proof.
  destruct q as [n d]. unfold whole, Qle, Qlt. cbn. intros Hn.
  rewrite Z.quot_div_nonneg by lia.
  pose proof (Z.mul_div_le n (Zpos d) ltac:(lia)).
  pose proof (Z.mul_succ_div_gt n (Zpos d) ltac:(lia)).
  lia.
Qed.

Lemma Qle_bool_true (a b : Q) : (a <= b)%Q -> Qle_bool a b = true.
Proof. apply Qle_bool_iff. Qed.

Lemma Qle_bool_false (a b : Q) : (b < a)%Q -> Qle_bool a b = false.
Proof.
  intros H. destruct (Qle_bool a b) eqn:E; [|done].
  apply Qle_bool_iff in E. by apply Qlt_not_le in H.
Qed.

(** How the library decodes a token whose signature it accepts and whose
    iat and exp are numbers: from the whole second of iat on, the token is
    accepted before the whole second of exp and refused as expired from
    then on. *)
Lemma jwt_decode_times tok payload (iat exp : Z) vi ve w :
  enough_segments tok = true ->
  jws_verify tok public_key algorithm = Some payload ->
  payload !! "iat" = Some vi -> py_int vi = Return iat ->
  payload !! "exp" = Some ve -> py_int ve = Return exp ->
  (inject_Z iat <= clock (ticks w))%Q ->
  ((clock (ticks w) < inject_Z exp)%Q ->
   jwt_decode tok public_key algorithm w = (Return payload, after_ticks 1 w)) /\
  ((inject_Z exp <= clock (ticks w))%Q ->
   jwt_decode tok public_key algorithm w
   = (Raise ExpiredSignatureError, after_ticks 1 w)).
Proof.
  intros Hseg Hver Hi Hvi He Hve Hle.
  unfold jwt_decode. rewrite Hseg, Hver.
  unfold bind, now, validate_iat, validate_exp, py_int_or, lift, ret, raise.
  cbn. rewrite Hi. cbn. rewrite Hvi. cbn. rewrite (Qle_bool_true _ _ Hle). cbn.
  rewrite He. cbn. rewrite Hve. cbn.
  split; intros H.
  - by rewrite (Qle_bool_false _ _ H).
  - by rewrite (Qle_bool_true _ _ H).
Qed.

(** C7, as amended. A token made with lifetime [T] from claims that hold
    neither iat nor exp (as the [to_dict] of a user does) carries as iat the
    first reading of the clock and as exp the second reading plus [T], both
    with their fractions of a second; so exp is at least iat plus [T] when
    the clock does not run backwards, and equal to it when the two readings
    agree. The library compares whole seconds: when it accepts the token's
    signature, decoding the token at a time from the whole second of iat on
    succeeds while the time is strictly before the whole second of exp, and
    raises the expiry error from that whole second on, which is at most exp
    and less than a second before it. The default lifetime is 3600
    seconds. *)
Theorem token_lifetime (T : Z) (kwargs : gmap string pyval) (w : World)
    (tok : string) (w1 : World) :
  kwargs !! "iat" = None ->
  kwargs !! "exp" = None ->
  create_token config T kwargs w = (Return tok, w1) ->
  exists payload (iat exp : Q),
    payload = kwargs ∪ <["iat" := PFloat iat]> (<["exp" := PFloat exp]> ∅) /\
    tok = jwt_encode payload private_key algorithm /\
    iat = clock (ticks w) /\
    exp = (clock (S (ticks w)) + inject_Z T)%Q /\
    payload !! "iat" = Some (PFloat iat) /\
    payload !! "exp" = Some (PFloat exp) /\
    ((clock (ticks w) <= clock (S (ticks w)))%Q -> (iat + inject_Z T <= exp)%Q) /\
    ((clock (ticks w) == clock (S (ticks w)))%Q -> (exp == iat + inject_Z T)%Q) /\
    ((0 <= exp)%Q ->
     (inject_Z (whole exp) <= exp)%Q /\ (exp < inject_Z (whole exp + 1))%Q) /\
    (forall w2,
        enough_segments tok = true ->
        jws_verify tok public_key algorithm = Some payload ->
        (inject_Z (whole iat) <= clock (ticks w2))%Q ->
        ((clock (ticks w2) < inject_Z (whole exp))%Q ->
         jwt_decode tok public_key algorithm w2 = (Return payload, after_ticks 1 w2)) /\
        ((inject_Z (whole exp) <= clock (ticks w2))%Q ->
         jwt_decode tok public_key algorithm w2
         = (Raise ExpiredSignatureError, after_ticks 1 w2))) /\
    default_expires_in = 3600.
Proof.
  intros Hiat Hexp. rewrite create_token_eq. intros [= <- <-].
  exists (token_payload (clock (ticks w)) (clock (S (ticks w))) T kwargs).
  eexists _, _. split; [reflexivity|].
  split; [reflexivity|]. split; [reflexivity|]. split; [reflexivity|].
  assert (token_payload (clock (ticks w)) (clock (S (ticks w))) T kwargs !! "iat"
          = Some (PFloat (clock (ticks w)))) as Hi.
  { unfold token_payload. rewrite lookup_union_r by done. evaluate. }
  assert (token_payload (clock (ticks w)) (clock (S (ticks w))) T kwargs !! "exp"
          = Some (PFloat (clock (S (ticks w)) + inject_Z T)%Q)) as He.
  { unfold token_payload. rewrite lookup_union_r by done. evaluate. }
  split; [done|]. split; [done|].
  split; [intros H; by apply Qplus_le_l|].
  split; [intros H; by rewrite H|].
  split; [apply whole_spec|].
  split; [|done].
  intros w2 Hseg Hver Hle.
  exact (jwt_decode_times _ _ _ _ _ _ w2 Hseg Hver Hi eq_refl He eq_refl Hle).
Qed.

(** The pattern fails exactly on a header that does not start with the
    literal and its space. *)
Lemma re_match_Bearer_None header :
  re_match_Bearer header = None <-> strip_prefix "Bearer " header = None.
Proof.
  unfold re_match_Bearer. destruct (strip_prefix "Bearer " header); split; congruence.
Qed.

(** An empty token has no segments: decoding raises before any check. *)
Lemma jwt_decode_empty key alg w :
  jwt_decode "" key alg w = (Raise DecodeError, w).
Proof. reflexivity. Qed.

(** C2. A request through [token_required] whose Authorization header is
    absent, or does not match the bearer pattern, or carries an empty
    token, or carries a token that [jwt.decode] rejects, gets status 403
    with the body of status Forbidden; the outcome is the same whatever the
    wrapped function is, so it is never called, and neither table
    changes. *)
Theorem token_required_rejects (req : Request) (w : World) :
  authorization req = None
  \/ (exists header, authorization req = Some header /\
                     re_match_Bearer header = None)
  \/ (exists header, authorization req = Some header /\
                     re_match_Bearer header = Some "")
  \/ (exists header tok e w1,
        authorization req = Some header /\
        re_match_Bearer header = Some tok /\
        jwt_decode tok public_key algorithm w = (Raise e, w1)) ->
  exists w',
    (forall f, token_required config f req w = (Return (Status "Forbidden", 403), w')) /\
    users w' = users w /\ products w' = products w /\ draws w' = draws w.
Proof.
  unfold token_required.
  intros [E | [(h & E & Em) | [(h & E & Em) | (h & tok & e & w1 & E & Em & Ed)]]];
    rewrite E; try rewrite Em.
  - by exists w.
  - by exists w.
  - exists w. split; [|done]. intros f.
    unfold bind, attempt. by rewrite jwt_decode_empty.
  - exists w1. split.
    + intros f. unfold bind, attempt. by rewrite Ed.
    + apply jwt_decode_frame in Ed. tauto.
Qed.

End Properties.

(** ** Evaluations on the concrete world *)

(** A request whose token carries a signature that the library rejects. *)
Lemma token_required_rejects_witness :
  exists w',
    (forall f, token_required (platform := Demo.platform) Demo.config f
                 (mkRequest (Some "Bearer a.b.c") None) Demo.world
               = (Return (Status "Forbidden", 403), w')) /\
    users w' = users Demo.world /\ products w' = products Demo.world /\
    draws w' = draws Demo.world.
Proof.
  apply (token_required_rejects (platform := Demo.platform)).
  right. right. right.
  exists "Bearer a.b.c", "a.b.c", InvalidSignatureError, Demo.world.
  repeat split; reflexivity.
Defined.

(** The guard lets the two tokens of the table through at the first
    reading of the clock. *)
Lemma alice_authenticated body :
  authenticated (platform := Demo.platform) Demo.config (Demo.as_alice body)
    Demo.world Demo.alice_claims (after_ticks 1 Demo.world).
Proof. exists "Bearer h.u1.s", "h.u1.s". repeat split; evaluate. Qed.

Lemma bob_authenticated body :
  authenticated (platform := Demo.platform) Demo.config (Demo.as_bob body)
    Demo.world Demo.bob_claims (after_ticks 1 Demo.world).
Proof. exists "Bearer h.u2.s", "h.u2.s". repeat split; evaluate. Qed.

(** [float(n)]: an integer of 53 bits is kept; 2^53 + 1 is rounded to
    2^53 and 2^53 + 3 to 2^53 + 4; 10^400 and 2^1024 - 1 overflow. *)
Lemma float_of_int_examples :
  float_of_int 20 = Some (inject_Z 20) /\
  float_of_int (2 ^ 53 + 1) = Some (inject_Z (2 ^ 53)) /\
  float_of_int (2 ^ 53 + 3) = Some (inject_Z (2 ^ 53 + 4)) /\
  float_of_int (- (2 ^ 53 + 1)) = Some (inject_Z (- 2 ^ 53)) /\
  float_of_int (2 ^ 1024 - 2 ^ 970 - 1) = Some (inject_Z (2 ^ 1024 - 2 ^ 971)) /\
  float_of_int (2 ^ 1024 - 1) = None /\
  float_of_int (10 ^ 400) = None.
Proof. repeat split; evaluate. Qed.

(** alice sends a full update of her product with the price 10^400, which
    [float] refuses, and with the price 2^53 + 1, which it rounds; carol
    registers with a password of 73 characters where [bcrypt] refuses
    it. *)
Lemma conversions_at_the_edges :
  update_product_route (platform := Demo.platform) Demo.config
    (Demo.as_alice (Some (Demo.price_update (10 ^ 400)))) Demo.world
  = (Return (StatusMessage "Bad request" SchemaValueError, 400),
     after_ticks 1 Demo.world) /\
  selling_price <$>
    products (update_product_route (platform := Demo.platform) Demo.config
                (Demo.as_alice (Some (Demo.price_update (2 ^ 53 + 1))))
                Demo.world).2 !! 1
  = Some (PFloat (inject_Z (2 ^ 53))) /\
  register_route (platform := Strict.platform) Demo.config
    (Demo.anonymous (Demo.register_body "carol" Strict.long_password "1" "c@d.io"))
    Demo.world
  = (Raise ValueError, mkWorld (users Demo.world) (products Demo.world) 0 2).
Proof. repeat split; evaluate. Qed.

(** bob sends a full update of, and a deletion of, alice's product. *)
Lemma owner_check_witness :
  update_product_route (platform := Demo.platform) Demo.config
    (Demo.as_bob (Some Demo.full_update)) Demo.world
  = (Return (Status "Permission denied", 401), after_ticks 1 Demo.world) /\
  delete_product_route (platform := Demo.platform) Demo.config "1"
    (Demo.as_bob (Some Demo.full_update)) Demo.world
  = (Return (Status "Permission denied", 401), after_ticks 1 Demo.world).
Proof.
  destruct (owner_check (platform := Demo.platform) Demo.config
              (Demo.as_bob (Some Demo.full_update)) Demo.world Demo.bob_claims
              (after_ticks 1 Demo.world) (PStr "u2") 1 Demo.lamp
              (bob_authenticated _)) as (Hput & Hdel & _);
    [evaluate | evaluate | evaluate |].
  split.
  - eapply (Hput _ Demo.full_update_request); [reflexivity | evaluate ..].
  - apply (Hdel "1"). evaluate.
Defined.

(** C1 as stated fails. bob, who does not own product 1, sends a PUT that
    names product 1 with every field and a negative price: the answer is
    400, not 401. alice, who owns it, sends a PUT with every field and the
    category_id 2^63: the handler raises at the commit and answers
    nothing, where the claim says 200. *)
Lemma owner_check_counterexample :
  (authenticated (platform := Demo.platform) Demo.config
     (Demo.as_bob (Some Demo.negative_price_update)) Demo.world Demo.bob_claims
     (after_ticks 1 Demo.world) /\
   Demo.bob_claims !! "user_id" = Some (PStr "u2") /\
   products Demo.world !! 1 = Some Demo.lamp /\
   py_ne (p_user_id Demo.lamp) (PStr "u2") = true /\
   update_product_route (platform := Demo.platform) Demo.config
     (Demo.as_bob (Some Demo.negative_price_update)) Demo.world
   = (Return (StatusMessage "Bad request" SchemaValueError, 400),
      after_ticks 1 Demo.world)) /\
  (authenticated (platform := Demo.platform) Demo.config
     (Demo.as_alice (Some Demo.huge_category_update)) Demo.world Demo.alice_claims
     (after_ticks 1 Demo.world) /\
   Demo.alice_claims !! "user_id" = Some (PStr "u1") /\
   py_ne (p_user_id Demo.lamp) (PStr "u1") = false /\
   update_product_route (platform := Demo.platform) Demo.config
     (Demo.as_alice (Some Demo.huge_category_update)) Demo.world
   = (Raise StoreError, after_ticks 1 Demo.world)).
Proof.
  split; (split; [first [apply bob_authenticated | apply alice_authenticated]|]);
    repeat split; evaluate.
Qed.

(** alice logs in. *)
Lemma issued_token_claims_witness :
  exists (k : string) (u : User) payload,
    users (after_ticks 2 Demo.world) !! k = Some u /\
    "h.u1.s" = jwt_encode (Platform := Demo.platform) payload
                 (JWT_PRIVATE_KEY Demo.config) (JWT_ALGORITHM Demo.config) /\
    payload !! "user_id" = Some (PStr k) /\
    payload !! "user_name" = Some (user_name u) /\
    payload !! "phone" = Some (phone u) /\
    payload !! "role" = Some (role u) /\
    payload !! "email" = Some (email u) /\
    payload !! "profile_picture" = Some (profile_picture u) /\
    dom payload = list_to_set ["iat"; "exp"; "user_id"; "user_name"; "phone";
                               "role"; "email"; "profile_picture"] /\
    payload !! "hash" = None.
Proof.
  apply (issued_token_claims (platform := Demo.platform) Demo.config
           (Demo.anonymous (Demo.login_body "alice" "pw123456")) Demo.world
           "h.u1.s" 200 (after_ticks 2 Demo.world)).
  right. evaluate.
Defined.

(** alice, who owns product 1, sends a PUT with product_id and
    product_name only. *)
Lemma update_needs_every_field_witness :
  exists error,
    update_product_route (platform := Demo.platform) Demo.config
      (Demo.as_alice (Some Demo.partial_update)) Demo.world
    = (Return (StatusMessage "Bad request" error, 400), after_ticks 1 Demo.world) /\
    users (after_ticks 1 Demo.world) = users Demo.world /\
    products (after_ticks 1 Demo.world) = products Demo.world.
Proof.
  eapply (update_needs_every_field (platform := Demo.platform) Demo.config
            (Demo.as_alice (Some Demo.partial_update)) Demo.world
            Demo.alice_claims (after_ticks 1 Demo.world) _ "picture"
            (alice_authenticated _) eq_refl);
    [cbn; auto 10 | evaluate].
Defined.

(** The partial update of the owner, evaluated: the schema misses the
    keys, the answer is 400 and product 1 is as it was, although the loop of
    the handler run on the validated part of this body would set the
    product_name and keep the other fields. *)
Lemma partial_update_rejected :
  authenticated (platform := Demo.platform) Demo.config
    (Demo.as_alice (Some Demo.partial_update)) Demo.world Demo.alice_claims
    (after_ticks 1 Demo.world) /\
  Demo.alice_claims !! "user_id" = Some (PStr "u1") /\
  products Demo.world !! 1 = Some Demo.lamp /\
  py_eq (p_user_id Demo.lamp) (PStr "u1") = true /\
  update_product_route (platform := Demo.platform) Demo.config
    (Demo.as_alice (Some Demo.partial_update)) Demo.world
  = (Return (StatusMessage "Bad request" SchemaMissingKeyError, 400),
     after_ticks 1 Demo.world) /\
  products (after_ticks 1 Demo.world) !! 1 = Some Demo.lamp /\
  map_fold assign Demo.lamp
    (<["product_id" := PInt 1]> (<["product_name" := PStr "Desk lamp"]> ∅))
  = mkProduct (PStr "Desk lamp") (picture Demo.lamp) (selling_price Demo.lamp)
      (description Demo.lamp) (available Demo.lamp) (p_user_id Demo.lamp)
      (category_id Demo.lamp).
Proof.
  split; [apply alice_authenticated|].
  repeat split; try evaluate.
Qed.

(** carol registers with alice's email. *)
Lemma register_existing_email_witness :
  register_route (platform := Demo.platform) Demo.config
    (Demo.anonymous (Demo.register_body "carol" "pw" "1" "a@b.com")) Demo.world
  = (Return (Status "Email is already exsit", 409), Demo.world).
Proof.
  eapply (register_existing_email (platform := Demo.platform) Demo.config _
            Demo.world _ (Demo.register_request "carol" "pw" "1" "a@b.com") "a@b.com");
    [reflexivity | evaluate | evaluate |].
  exists "u1", Demo.alice. split; evaluate.
Defined.

(** C5 as stated fails: a registration with alice's email and an empty
    phone gets 400, not 409. *)
Lemma register_existing_email_counterexample :
  Demo.register_body "carol" "pw" "" "a@b.com"
  = JDict (<["user_name" := JStr "carol"]> (<["password" := JStr "pw"]>
          (<["phone" := JStr ""]> (<["email" := JStr "a@b.com"]> ∅)))) /\
  users Demo.world !! "u1" = Some Demo.alice /\
  email Demo.alice = PStr "a@b.com" /\
  register_route (platform := Demo.platform) Demo.config
    (Demo.anonymous (Demo.register_body "carol" "pw" "" "a@b.com")) Demo.world
  = (Return (StatusMessage "Bad request" SchemaValueError, 400), Demo.world) /\
  (register_route (platform := Demo.platform) Demo.config
     (Demo.anonymous (Demo.register_body "carol" "pw" "" "a@b.com")) Demo.world).1
  <> Return (Status "Email is already exsit", 409).
Proof. repeat split; try evaluate. Qed.

(** With the [bcrypt] of version 5: a login with a name that no user has
    and a password of 73 characters, a login of alice with a wrong
    password, and a login of alice with the password of 73 characters. The
    first two get 401; the third raises. *)
Lemma login_failure_outcomes_witness :
  login_route (platform := Strict.platform) Demo.config
    (Demo.anonymous (Demo.login_body "mallory" Strict.long_password)) Demo.world
  = (Return (Status "Unauthorized", 401), Demo.world) /\
  login_route (platform := Strict.platform) Demo.config
    (Demo.anonymous (Demo.login_body "alice" "bad")) Demo.world
  = (Return (Status "Unauthorized", 401), Demo.world) /\
  login_route (platform := Strict.platform) Demo.config
    (Demo.anonymous (Demo.login_body "alice" Strict.long_password)) Demo.world
  = (Raise ValueError, Demo.world).
Proof.
  split; [|split].
  - eapply (proj1 (login_failure_outcomes (platform := Strict.platform) Demo.config
                     (Demo.anonymous (Demo.login_body "mallory" Strict.long_password))
                     Demo.world _
                     (Demo.login_request "mallory" Strict.long_password)
                     "mallory" Strict.long_password
                     eq_refl ltac:(evaluate) ltac:(evaluate)
                     ltac:(evaluate))).
    intros k u Hk Hu.
    assert (query_first (fun u => py_eq (user_name u) (PStr "mallory"))
              (users Demo.world) = None) as Hq by (evaluate).
    pose proof (proj1 (query_first_None _ _) Hq k u Hk) as Hf.
    cbn in Hf. rewrite Hu in Hf. by vm_compute in Hf.
  - eapply (proj1 (proj2 (login_failure_outcomes (platform := Strict.platform)
                            Demo.config
                            (Demo.anonymous (Demo.login_body "alice" "bad"))
                            Demo.world _
                            (Demo.login_request "alice" "bad") "alice" "bad"
                            eq_refl ltac:(evaluate) ltac:(evaluate)
                            ltac:(evaluate))
                         "u1" Demo.alice "salt$pw123456"
                         ltac:(evaluate) eq_refl));
      evaluate.
  - eapply (proj2 (proj2 (login_failure_outcomes (platform := Strict.platform)
                            Demo.config
                            (Demo.anonymous (Demo.login_body "alice" Strict.long_password))
                            Demo.world _
                            (Demo.login_request "alice" Strict.long_password)
                            "alice" Strict.long_password
                            eq_refl ltac:(evaluate) ltac:(evaluate)
                            ltac:(evaluate))
                         "u1" Demo.alice "salt$pw123456"
                         ltac:(evaluate) eq_refl));
      evaluate.
Defined.

(** A token for alice, made with the default lifetime when the clock reads
    1000.75 and then 1001.75: it is accepted at 4600.75, the last reading
    before the whole second 4601 of its exp, and refused at 4601.75. *)
Lemma token_lifetime_witness :
  exists payload,
    "h.u1.s" = jwt_encode (Platform := Demo.platform) payload
                 (JWT_PRIVATE_KEY Demo.config) (JWT_ALGORITHM Demo.config) /\
    payload !! "iat" = Some (PFloat (4003 # 4)) /\
    payload !! "exp" = Some (PFloat (18407 # 4)) /\
    jwt_decode (platform := Demo.platform) "h.u1.s" "public" "RS256"
      (after_ticks 3600 Demo.world)
    = (Return payload, after_ticks 3601 Demo.world) /\
    jwt_decode (platform := Demo.platform) "h.u1.s" "public" "RS256"
      (after_ticks 3601 Demo.world)
    = (Raise ExpiredSignatureError, after_ticks 3602 Demo.world) /\
    default_expires_in = 3600.
Proof.
  destruct (token_lifetime (platform := Demo.platform) Demo.config
              default_expires_in (User_to_dict ("u1", Demo.alice)) Demo.world
              "h.u1.s" (after_ticks 2 Demo.world))
    as (payload & iat & exp & -> & Htok & -> & -> & Hi & He & _ & _ & _ & Hdec & Hd);
    [evaluate | evaluate | evaluate |].
  eexists. split; [exact Htok|]. split; [exact Hi|]. split; [exact He|].
  split; [|split; [|done]].
  - apply (Hdec (after_ticks 3600 Demo.world)); evaluate.
  - apply (Hdec (after_ticks 3601 Demo.world)); evaluate.
Defined.

(** C7 as stated fails, in both directions. With the demo clock, which
    reads 1000.75 and then 1001.75 while the token is made, iat is 1000.75
    and exp is 4601.75, which is not iat plus 3600; the library accepts the
    token, and decoding it when the clock reads 4600.75, which is iat plus
    the lifetime, succeeds. With the clock that stands at 1000.5 while the
    token is made, exp is 4600.5, which is iat plus 3600; decoding the token
    when the clock reads 4600.25, before iat plus the lifetime, raises the
    expiry error, the whole second of exp being 4600. *)
Lemma token_lifetime_counterexample :
  (create_token (platform := Demo.platform) Demo.config default_expires_in
     (User_to_dict ("u1", Demo.alice)) Demo.world
   = (Return "h.u1.s", after_ticks 2 Demo.world) /\
   jwt_encode (Platform := Demo.platform) Demo.alice_claims "private" "RS256"
   = "h.u1.s" /\
   Demo.alice_claims !! "iat" = Some (PFloat (4003 # 4)) /\
   Demo.alice_claims !! "exp" = Some (PFloat (18407 # 4)) /\
   ~ (18407 # 4 == (4003 # 4) + inject_Z default_expires_in)%Q /\
   (clock (Platform := Demo.platform) (ticks (after_ticks 3600 Demo.world))
    == (4003 # 4) + inject_Z default_expires_in)%Q /\
   jwt_decode (platform := Demo.platform) "h.u1.s" "public" "RS256"
     (after_ticks 3600 Demo.world)
   = (Return Demo.alice_claims, after_ticks 3601 Demo.world)) /\
  (create_token (platform := Strict.platform) Demo.config default_expires_in
     (User_to_dict ("u1", Demo.alice)) Demo.world
   = (Return "h.u1.s", after_ticks 2 Demo.world) /\
   jwt_encode (Platform := Strict.platform) Strict.alice_claims "private" "RS256"
   = "h.u1.s" /\
   Strict.alice_claims !! "iat" = Some (PFloat (2001 # 2)) /\
   Strict.alice_claims !! "exp" = Some (PFloat (9201 # 2)) /\
   (9201 # 2 == (2001 # 2) + inject_Z default_expires_in)%Q /\
   (clock (Platform := Strict.platform) (ticks (after_ticks 2 Demo.world))
    < (2001 # 2) + inject_Z default_expires_in)%Q /\
   jwt_decode (platform := Strict.platform) "h.u1.s" "public" "RS256"
     (after_ticks 2 Demo.world)
   = (Raise ExpiredSignatureError, after_ticks 3 Demo.world)).
Proof. split; repeat split; evaluate. Qed.

(** bob offers a chair. *)
Lemma create_product_owner_witness :
  exists claims w1 uid p,
    authenticated (platform := Demo.platform) Demo.config
      (Demo.as_bob (Some Demo.new_product)) Demo.world claims w1 /\
    claims !! "user_id" = Some uid /\
    products Demo.world !! fresh (dom (products Demo.world)) = None /\
    products (create_product_route (platform := Demo.platform) Demo.config
                (Demo.as_bob (Some Demo.new_product)) Demo.world).2
    = <[fresh (dom (products Demo.world)) := p]> (products Demo.world) /\
    p_user_id p = uid /\
    available p = PInt 0.
Proof.
  apply (create_product_owner (platform := Demo.platform) Demo.config
           (Demo.as_bob (Some Demo.new_product)) Demo.world (Message "success")).
  evaluate.
Defined.

(** carol registers. *)
Lemma register_user_id_and_role_witness :
  exists u,
    users (register_route (platform := Demo.platform) Demo.config
             (Demo.anonymous (Demo.register_body "carol" "pw" "1" "c@d.io"))
             Demo.world).2
    = <["u3" := u]> (users Demo.world) /\
    role u = PInt UserRole.user /\ role u <> PInt UserRole.admin.
Proof.
  exact (proj1 (register_user_id_and_role (platform := Demo.platform) Demo.config
                  (Demo.anonymous (Demo.register_body "carol" "pw" "1" "c@d.io"))
                  Demo.world (Return (Token "h.u3.s", 200)) _
                  ltac:(evaluate))).
Defined.

(** bob asks for his own record. *)
Lemma current_user_needs_stored_user_witness :
  current_user_route (platform := Demo.platform) Demo.config
    (Demo.as_bob None) Demo.world
  = (Return (Json (User_to_dict ("u2", Demo.bob)), 200), after_ticks 1 Demo.world) /\
  (forall u, User_to_dict u !! "hash" = None).
Proof.
  exact (current_user_needs_stored_user (platform := Demo.platform) Demo.config
           (Demo.as_bob None) Demo.world Demo.bob_claims (after_ticks 1 Demo.world)
           (PStr "u2") (bob_authenticated _) ltac:(evaluate)).
Defined.

(** * Further properties of the handlers *)

Section Text.

Lemma strip_prefix_app p s : strip_prefix p (p ++ s) = Some s.
Proof.
  induction p as [|a p IH]; [done|].
  change (strip_prefix (String a p) (String a (p ++ s)) = Some s).
  simpl. by rewrite Ascii.eqb_refl.
Qed.

Lemma until_newline_id s : count_char newline s = 0%nat -> until_newline s = s.
Proof.
  induction s as [|a s IH]; simpl; [done|].
  destruct (Ascii.eqb a newline); [done|]. simpl. intros H. by rewrite IH.
Qed.

Lemma count_char_app c s t :
  count_char c (s ++ t) = (count_char c s + count_char c t)%nat.
Proof. induction s as [|a s IH]; simpl; [done|]. rewrite IH. lia. Qed.

Lemma all_chars_app p s t :
  all_chars p (s ++ t) = all_chars p s && all_chars p t.
Proof. induction s as [|a s IH]; simpl; [done|]. by rewrite IH, andb_assoc. Qed.

Lemma length_app_string s t :
  String.length (s ++ t) = (String.length s + String.length t)%nat.
Proof. induction s as [|a s IH]; simpl; [done|]. by rewrite IH. Qed.

Lemma all_chars_impl (p q : ascii -> bool) s :
  (forall c, p c = true -> q c = true) -> all_chars p s = true -> all_chars q s = true.
Proof.
  intros Hpq. induction s as [|a s IH]; simpl; [done|].
  intros [Ha Hs]%andb_true_iff. by rewrite (Hpq _ Ha), IH.
Qed.

Lemma all_chars_count p c s :
  all_chars p s = true -> p c = false -> count_char c s = 0%nat.
Proof.
  intros Hs Hc. induction s as [|a s IH]; simpl; [done|].
  simpl in Hs. apply andb_true_iff in Hs as [Ha Hs].
  destruct (Ascii.eqb_spec a c) as [->|]; [congruence|]. by rewrite IH.
Qed.

Lemma split_at_first_spec c s l r :
  split_at_first c s = Some (l, r) ->
  s = l ++ String c r /\ count_char c l = 0%nat.
Proof.
  revert l. induction s as [|a s IH]; intros l; simpl; [done|].
  destruct (Ascii.eqb_spec a c) as [->|Hne].
  - by intros [= <- <-].
  - destruct (split_at_first c s) as [[l' r']|]; [|done].
    intros [= <- <-]. destruct (IH l' eq_refl) as [-> Hl]. simpl.
    split; [done|]. destruct (Ascii.eqb_spec a c); [done|]. by rewrite Hl.
Qed.

Lemma split_at_last_spec c s l r :
  split_at_last c s = Some (l, r) -> s = l ++ String c r.
Proof.
  revert l. induction s as [|a s IH]; intros l; simpl; [done|].
  destruct (split_at_last c s) as [[l' r']|].
  - intros [= <- <-]. by rewrite (IH l' eq_refl) at 1.
  - destruct (Ascii.eqb_spec a c) as [->|]; [|done]. by intros [= <- <-].
Qed.

(** X1. A header made of the literal, one space and a token without a
    newline gives the token back. *)
Theorem re_match_Bearer_round_trip (tok : string) :
  count_char newline tok = 0%nat ->
  re_match_Bearer ("Bearer " ++ tok) = Some tok.
Proof.
  intros H. unfold re_match_Bearer.
  by rewrite (strip_prefix_app "Bearer " tok), until_newline_id.
Qed.

(** X2. An address that [is_email] accepts has exactly one at sign, is at
    least six characters long, and is made of letters, digits and the
    characters of [._%+-@|] only. *)
Theorem is_email_shape (s : string) :
  is_email s = true ->
  count_char "@" s = 1%nat /\
  (6 <= String.length s)%nat /\
  all_chars address_char s = true.
Proof.
  unfold is_email.
  destruct (split_at_first "@" s) as [[local rest]|] eqn:E1; [|done].
  destruct (split_at_last "." rest) as [[domain tld]|] eqn:E2; [|done].
  apply split_at_first_spec in E1 as [-> Hl].
  apply split_at_last_spec in E2 as ->.
  rewrite !andb_true_iff.
  intros [[[[[[_ Hl1%Nat.leb_le] Hla] Hd1%Nat.leb_le] Hda] Ht2%Nat.leb_le] Hta].
  assert (forall c, domain_char c = true -> address_char c = true) as Hdom.
  { intros c. unfold address_char, local_char, domain_char.
    destruct (is_alpha c), (is_digit c), (is_char "." c), (is_char "-" c);
      simpl; try done; intros _; by rewrite !orb_true_r. }
  assert (forall c, tld_char c = true -> address_char c = true) as Htld.
  { intros c. unfold address_char, local_char, tld_char.
    destruct (is_alpha c), (is_char "|" c); simpl; try done; intros _;
      by rewrite !orb_true_r. }
  assert (forall c, local_char c = true -> address_char c = true) as Hloc.
  { intros c Hc. unfold address_char. by rewrite Hc. }
  split; [|split].
  - rewrite count_char_app. simpl. rewrite count_char_app. simpl.
    rewrite Hl, (all_chars_count domain_char "@" domain Hda eq_refl),
      (all_chars_count tld_char "@" tld Hta eq_refl). done.
  - rewrite length_app_string. simpl. rewrite length_app_string. simpl. lia.
  - rewrite all_chars_app. simpl. rewrite all_chars_app. simpl.
    rewrite (all_chars_impl _ _ _ Hloc Hla), (all_chars_impl _ _ _ Hdom Hda),
      (all_chars_impl _ _ _ Htld Hta). done.
Qed.

End Text.

Lemma re_match_Bearer_round_trip_witness :
  re_match_Bearer ("Bearer " ++ "h.u1.s") = Some "h.u1.s".
Proof. apply re_match_Bearer_round_trip. reflexivity. Defined.

Lemma is_email_shape_witness :
  count_char "@" "a.b+c@x-y.z.org" = 1%nat /\
  (6 <= String.length "a.b+c@x-y.z.org")%nat /\
  all_chars address_char "a.b+c@x-y.z.org" = true.
Proof. apply is_email_shape. reflexivity. Defined.

(** ** Errors, frames and what the handlers never do *)

Section Frames.
Context {platform : Platform}.
Variable config : Config.

Local Arguments validate : simpl never.
Local Arguments query_first : simpl never.
Local Arguments store_accepts : simpl never.

(** The calls of a handler, down to the monad. *)
Ltac open_run :=
  unfold request_json, merge_User, add_Product, merge_Product, delete_Product,
    session_get_User, session_get_Product, create_token;
  unfold bind, copy, ret, raise, getitem, get_world, draw, encode, commit,
    set_users, set_products, now.

(** Case analysis over every branch a run of a handler can take. *)
Ltac break_run H :=
  repeat (cbn in H;
          match type of H with
          | context [match ?x with _ => _ end] =>
              lazymatch x with
              | context [match _ with _ => _ end] => fail
              | _ => destruct x eqn:?
              end
          end).

Lemma guarded_users f :
  (forall g req w res w', f g req w = (res, w') -> users w' = users w) ->
  forall req w res w',
    token_required config f req w = (res, w') -> users w' = users w.
Proof.
  intros Hf req w res w'. unfold token_required.
  destruct (authorization req) as [h|]; [|by intros [= <- <-]].
  destruct (re_match_Bearer h) as [tok|]; [|by intros [= <- <-]].
  unfold bind, attempt.
  destruct (jwt_decode tok _ _ w) as [[claims|e] w1] eqn:E;
    apply jwt_decode_frame in E as (Hu & _).
  - intros Hrun. apply Hf in Hrun. congruence.
  - by intros [= <- <-].
Qed.

Lemma guarded_products f :
  (forall g req w res w', f g req w = (res, w') -> products w' = products w) ->
  forall req w res w',
    token_required config f req w = (res, w') -> products w' = products w.
Proof.
  intros Hf req w res w'. unfold token_required.
  destruct (authorization req) as [h|]; [|by intros [= <- <-]].
  destruct (re_match_Bearer h) as [tok|]; [|by intros [= <- <-]].
  unfold bind, attempt.
  destruct (jwt_decode tok _ _ w) as [[claims|e] w1] eqn:E;
    apply jwt_decode_frame in E as (_ & Hp & _).
  - intros Hrun. apply Hf in Hrun. congruence.
  - by intros [= <- <-].
Qed.

Lemma login_route_frame req w res w' :
  login_route config req w = (res, w') ->
  users w' = users w /\ products w' = products w.
Proof.
  unfold login_route. open_run.
  intros H. break_run H; by injection H as <- <-.
Qed.

Lemma register_route_products req w res w' :
  register_route config req w = (res, w') -> products w' = products w.
Proof.
  unfold register_route. open_run.
  intros H. break_run H; by injection H as <- <-.
Qed.

Lemma current_user_route_body_frame g req w res w' :
  current_user_route_body g req w = (res, w') -> w' = w.
Proof.
  unfold current_user_route_body. open_run.
  intros H. break_run H; by injection H as <- <-.
Qed.

Lemma create_product_route_body_users g req w res w' :
  create_product_route_body g req w = (res, w') -> users w' = users w.
Proof.
  unfold create_product_route_body. open_run.
  intros H. break_run H; by injection H as <- <-.
Qed.

(** A run of the update leaves the products table as it was or replaces
    one stored row by what the loop makes of it. *)
Lemma update_product_route_body_cases g req w res w' :
  update_product_route_body g req w = (res, w') ->
  users w' = users w /\
  (products w' = products w \/
   exists pid p r,
     products w !! pid = Some p /\
     products w' = <[pid := updated r p]> (products w)).
Proof.
  unfold update_product_route_body. open_run.
  intros H. break_run H; injection H as <- <-; (split; [done|]); auto;
    right; cbn; rewrite update_loop;
    match goal with
    | E : _ <$> products w !! ?n = Some _ |- _ =>
        destruct (products w !! n) as [p'|] eqn:Ep; [|done];
        cbn in E; injection E as <-;
        exists n, p'; eexists; split; [done|reflexivity]
    end.
Qed.

Lemma delete_product_route_body_users pid g req w res w' :
  delete_product_route_body pid g req w = (res, w') -> users w' = users w.
Proof.
  unfold delete_product_route_body. open_run.
  intros H. break_run H; by injection H as <- <-.
Qed.

(** X3. Only the registration writes the users table: a run of the login,
    of GET /currentUser, or of the creation, update or deletion of a
    product leaves it as it was, whatever the request and the answer. *)
Theorem users_change_only_on_register (req : Request) (w : World)
    (res : result Response) (w' : World) :
  login_route config req w = (res, w') \/
  current_user_route config req w = (res, w') \/
  create_product_route config req w = (res, w') \/
  update_product_route config req w = (res, w') \/
  (exists product_id_, delete_product_route config product_id_ req w = (res, w')) ->
  users w' = users w.
Proof.
  intros [H|[H|[H|[H|[pid H]]]]].
  - by apply login_route_frame in H as [? _].
  - revert H. apply guarded_users. intros g r0 w0 res0 w0' H0.
    apply current_user_route_body_frame in H0. by subst.
  - revert H. apply guarded_users. apply create_product_route_body_users.
  - revert H. apply guarded_users. intros g r0 w0 res0 w0' H0.
    by apply update_product_route_body_cases in H0 as [? _].
  - revert H. apply guarded_users. apply delete_product_route_body_users.
Qed.

(** X4. The registration, the login and GET /currentUser never write the
    products table. *)
Theorem products_untouched_by_identity_routes (req : Request) (w : World)
    (res : result Response) (w' : World) :
  register_route config req w = (res, w') \/
  login_route config req w = (res, w') \/
  current_user_route config req w = (res, w') ->
  products w' = products w.
Proof.
  intros [H|[H|H]].
  - by apply register_route_products in H.
  - by apply login_route_frame in H as [_ ?].
  - revert H. apply guarded_products. intros g r0 w0 res0 w0' H0.
    apply current_user_route_body_frame in H0. by subst.
Qed.

(** X5. A PUT on /product, whatever its outcome, neither adds nor removes
    a product, and every stored product keeps its user_id and its available
    field: the owner of a product never changes. *)
Theorem update_keeps_rows_and_owners (req : Request) (w : World)
    (res : result Response) (w' : World) :
  update_product_route config req w = (res, w') ->
  dom (products w') = dom (products w) /\
  (forall k p', products w' !! k = Some p' ->
     exists p, products w !! k = Some p /\
               p_user_id p' = p_user_id p /\ available p' = available p).
Proof.
  intros H.
  assert (products w' = products w \/
          exists pid p r, products w !! pid = Some p /\
                          products w' = <[pid := updated r p]> (products w))
    as [->|(pid & p & r & Hp & ->)].
  { revert H. unfold update_product_route, token_required.
    destruct (authorization req) as [h|]; [|intros [= <- <-]; auto].
    destruct (re_match_Bearer h) as [tok|]; [|intros [= <- <-]; auto].
    unfold bind, attempt.
    destruct (jwt_decode tok _ _ w) as [[claims|e] w1] eqn:E;
      apply jwt_decode_frame in E as (_ & Hp & _); [|intros [= <- <-]; auto].
    intros H. apply update_product_route_body_cases in H as [_ H].
    by rewrite Hp in H. }
  - split; [done|]. intros k p' Hk. eauto.
  - split.
    + apply dom_insert_lookup_L. eauto.
    + intros k p' Hk. destruct (decide (pid = k)) as [<-|Hne].
      * rewrite lookup_insert_eq in Hk. injection Hk as <-. eauto.
      * rewrite lookup_insert_ne in Hk by done. eauto.
Qed.

End Frames.

Lemma users_change_only_on_register_witness :
  users (update_product_route (platform := Demo.platform) Demo.config
           (Demo.as_alice (Some Demo.full_update)) Demo.world).2
  = users Demo.world.
Proof.
  apply (users_change_only_on_register (platform := Demo.platform) Demo.config
           (Demo.as_alice (Some Demo.full_update)) Demo.world
           (Return (Message "success", 200))).
  do 3 right. left. evaluate.
Defined.

Lemma products_untouched_by_identity_routes_witness :
  products (register_route (platform := Demo.platform) Demo.config
              (Demo.anonymous (Demo.register_body "carol" "pw" "1" "c@d.io"))
              Demo.world).2
  = products Demo.world.
Proof.
  apply (products_untouched_by_identity_routes (platform := Demo.platform)
           Demo.config
           (Demo.anonymous (Demo.register_body "carol" "pw" "1" "c@d.io"))
           Demo.world (Return (Token "h.u3.s", 200))).
  left. evaluate.
Defined.

Lemma update_keeps_rows_and_owners_witness :
  dom (products (update_product_route (platform := Demo.platform) Demo.config
                   (Demo.as_alice (Some Demo.full_update)) Demo.world).2)
  = dom (products Demo.world) /\
  (forall k p',
     products (update_product_route (platform := Demo.platform) Demo.config
                 (Demo.as_alice (Some Demo.full_update)) Demo.world).2 !! k
     = Some p' ->
     exists p, products Demo.world !! k = Some p /\
               p_user_id p' = p_user_id p /\ available p' = available p).
Proof.
  apply (update_keeps_rows_and_owners (platform := Demo.platform) Demo.config
           (Demo.as_alice (Some Demo.full_update)) Demo.world
           (Return (Message "success", 200))).
  evaluate.
Defined.

(** ** Tokens at the guard, bodies, and the registration flow *)

Section Flows.
Context {platform : Platform}.
Variable config : Config.

Abbreviation public_key' := (JWT_PUBLIC_KEY config).
Abbreviation private_key' := (JWT_PRIVATE_KEY config).
Abbreviation algorithm' := (JWT_ALGORITHM config).

Local Arguments validate : simpl never.
Local Arguments query_first : simpl never.

(** Decoding a token whose exp, as the whole number of seconds that the
    library makes of it, is not after the reading of the clock raises. *)
Lemma jwt_decode_expired tok key alg w payload v e :
  jws_verify tok key alg = Some payload ->
  payload !! "exp" = Some v ->
  py_int v = Return e ->
  (inject_Z e <= clock (ticks w))%Q ->
  exists err w', jwt_decode tok key alg w = (Raise err, w').
Proof.
  intros Hver Hexp Hpy Hle. unfold jwt_decode.
  destruct (enough_segments tok); [|by eexists _, _].
  rewrite Hver.
  unfold bind, now, validate_iat, validate_exp, lift, ret, raise.
  cbn.
  destruct (payload !! "iat") as [v0|]; cbn;
    [destruct (py_int_or _ v0) as [iat|]; cbn; [destruct (Qle_bool _ _); cbn|]|];
    try (by eexists _, _);
    rewrite Hexp; cbn; unfold py_int_or; rewrite Hpy; cbn;
    rewrite (Qle_bool_true _ _ Hle); by eexists _, _.
Qed.

(** X6. A request through the guard whose token passes the signature
    check but whose exp, a float as [create_token] writes it or an integer,
    cut to its whole second as the library does, is not after the current
    reading of the clock, gets status 403 with the body of status
    Forbidden, whatever the wrapped function is, and neither table
    changes. *)
Theorem expired_token_forbidden (req : Request) (w : World) (header tok : string)
    (payload : gmap string pyval) (v : pyval) (e : Z) :
  authorization req = Some header ->
  re_match_Bearer header = Some tok ->
  jws_verify tok public_key' algorithm' = Some payload ->
  payload !! "exp" = Some v ->
  py_int v = Return e ->
  (inject_Z e <= clock (ticks w))%Q ->
  exists w',
    (forall f, token_required config f req w = (Return (Status "Forbidden", 403), w')) /\
    users w' = users w /\ products w' = products w.
Proof.
  intros Hh Hm Hver Hexp Hpy Hle.
  destruct (jwt_decode_expired _ _ _ _ _ _ _ Hver Hexp Hpy Hle) as (err & w' & Hd).
  exists w'. split.
  - intros f. unfold token_required. rewrite Hh, Hm. unfold bind, attempt.
    by rewrite Hd.
  - apply jwt_decode_frame in Hd. tauto.
Qed.

(** X7. The login answers with a token only when the body names a stored
    user whose stored hash passes the password check against the body's
    password; the status is then 200 and the clock has been read twice. *)
Theorem login_token_needs_password (req : Request) (w : World) (t : string)
    (code : Z) (w' : World) :
  login_route config req w = (Return (Token t, code), w') ->
  exists d name pw k u hashed,
    json_body req = Some (JDict d) /\
    d !! "user_name" = Some (JStr name) /\
    d !! "password" = Some (JStr pw) /\
    users w !! k = Some u /\
    user_name u = PStr name /\
    hash u = PStr hashed /\
    checkpw pw hashed = Some true /\
    code = 200 /\ w' = after_ticks 2 w.
Proof.
  destruct (json_body req) as [j|] eqn:Hj;
    [|unfold login_route, request_json; rewrite Hj; discriminate].
  destruct j as [| | | | | |d];
    try (unfold login_route, request_json; rewrite Hj; discriminate).
  destruct (validate LOGIN_SCHEMA (JDict d)) as [error|r] eqn:Hv.
  { by rewrite (login_route_invalid config _ _ _ _ Hj Hv). }
  destruct (validate_LOGIN _ _ Hv) as (name & pw & Hdn & Hdp & Hn & Hp).
  rewrite (login_route_valid config _ _ _ _ _ _ Hj Hv Hn Hp).
  destruct (query_first _ _) as [[k u]|] eqn:Hq; [|discriminate].
  apply query_first_Some in Hq as [Hk Hu%py_eq_PStr]. cbn.
  destruct (hash u) as [| | |hashed] eqn:Hh; try discriminate.
  destruct (checkpw pw hashed) as [[|]|] eqn:Hc; try discriminate.
  intros [= <- <- <-]. exists d, name, pw, k, u, hashed. auto 10.
Qed.

(** X8. A JSON body that is neither a dict nor a list, such as a number, a
    text or null: the registration and the login answer 400 with the body
    of status Bad request and change nothing, while the creation and the
    update of a product, once through the guard, raise [AttributeError]
    (the body has no [copy]) and return no response. *)
Theorem scalar_body_handling (req : Request) (w : World) (j : json) :
  json_body req = Some j ->
  match j with JDict _ | JList _ => False | _ => True end ->
  register_route config req w = (Return (Status "Bad request", 400), w) /\
  login_route config req w = (Return (Status "Bad request", 400), w) /\
  (forall claims w1,
      authenticated config req w claims w1 ->
      create_product_route config req w = (Raise AttributeError, w1) /\
      update_product_route config req w = (Raise AttributeError, w1)).
Proof.
  intros Hj Hscalar.
  split; [|split].
  - unfold register_route, request_json. rewrite Hj. by destruct j.
  - unfold login_route, request_json. rewrite Hj. by destruct j.
  - intros claims w1 Ha.
    unfold create_product_route, update_product_route.
    rewrite !(token_required_authenticated config _ _ _ _ _ Ha).
    unfold create_product_route_body, update_product_route_body, request_json.
    rewrite Hj. by destruct j.
Qed.

(** How a run of the registration leaves the users table. *)
Lemma register_route_users req w res w' :
  register_route config req w = (res, w') ->
  users w' = users w \/
  exists e u,
    (forall k u0, users w !! k = Some u0 -> email u0 <> PStr e) /\
    email u = PStr e /\
    users w' = <[uuid4 (draws w) := u]> (users w).
Proof.
  intros Hrun.
  destruct (json_body req) as [j|] eqn:Hj;
    [|unfold register_route, request_json in Hrun; rewrite Hj in Hrun;
      injection Hrun as <- <-; auto].
  destruct j as [| | | | | |d];
    try (unfold register_route, request_json in Hrun; rewrite Hj in Hrun;
         injection Hrun as <- <-; auto).
  destruct (validate REGISTER_SCHEMA (JDict d)) as [error|r] eqn:Hv.
  { rewrite (register_route_invalid config _ _ _ _ Hj Hv) in Hrun.
    injection Hrun as <- <-; auto. }
  destruct (validate_REGISTER _ _ Hv)
    as (name & pw & ph & e & _ & (Hn & Hp & Hph & He) & _).
  rewrite (register_route_valid config _ _ _ _ _ _ _ _ Hj Hv Hn Hp Hph He) in Hrun.
  destruct (query_first _ _) eqn:Hq; [injection Hrun as <- <-; auto|].
  destruct (hashpw pw _) as [hashed|]; [|injection Hrun as <- <-; auto].
  cbv zeta in Hrun.
  destruct (store_accepts _ _); injection Hrun as <- <-; [|auto].
  right. eexists e, _. split; [|split; [|reflexivity]]; [|done].
  intros k u0 Hk Hu0. pose proof (proj1 (query_first_None _ _) Hq k u0 Hk) as Hf.
  cbn in Hf. by rewrite (proj2 (py_eq_PStr _ _) Hu0) in Hf.
Qed.

(** X9. If no two stored users share an email, no run of the registration
    makes two share one. *)
Theorem register_keeps_emails_unique (req : Request) (w : World)
    (res : result Response) (w' : World) :
  unique_emails (users w) ->
  register_route config req w = (res, w') ->
  unique_emails (users w').
Proof.
  intros Huniq Hrun.
  destruct (register_route_users _ _ _ _ Hrun) as [->|(e & u & Hfree & He & ->)];
    [done|].
  intros k1 k2 u1 u2 e' H1 H2 He1 He2.
  destruct (decide (uuid4 (draws w) = k1)) as [E1|N1],
           (decide (uuid4 (draws w) = k2)) as [E2|N2]; [congruence| | |].
  - subst k1. rewrite lookup_insert_eq in H1. injection H1 as <-.
    rewrite lookup_insert_ne in H2 by done.
    destruct (Hfree k2 u2 H2). congruence.
  - subst k2. rewrite lookup_insert_eq in H2. injection H2 as <-.
    rewrite lookup_insert_ne in H1 by done.
    destruct (Hfree k1 u1 H1). congruence.
  - rewrite lookup_insert_ne in H1, H2 by done. eauto.
Qed.

(** How the registration runs on a body that validates, by whether its
    email is stored. *)
Lemma register_route_taken req w d r e :
  json_body req = Some (JDict d) ->
  validate REGISTER_SCHEMA (JDict d) = inr r ->
  r !! "email" = Some (PStr e) ->
  (exists k u, users w !! k = Some u /\ email u = PStr e) ->
  register_route config req w = (Return (Status "Email is already exsit", 409), w).
Proof.
  intros Hj Hv He (k & u & Hk & Hu).
  destruct (validate_REGISTER _ _ Hv)
    as (name & pw & ph & e' & _ & (Hn & Hp & Hph & He') & _).
  assert (e' = e) as -> by congruence.
  rewrite (register_route_valid config _ _ _ _ _ _ _ _ Hj Hv Hn Hp Hph He).
  destruct (query_first _ _) eqn:Hq; [done|].
  pose proof (proj1 (query_first_None _ _) Hq k u Hk) as Hf. cbn in Hf.
  by rewrite (proj2 (py_eq_PStr _ _) Hu) in Hf.
Qed.

(** X10. After a registration that answered with a token, a registration
    whose body passes the schema with the same email gets status 409 and
    changes nothing. *)
Theorem register_twice (req req2 : Request) (w w1 : World) (t : string) (code : Z)
    (d d2 : gmap string json) (r2 : gmap string pyval) (e : string) :
  register_route config req w = (Return (Token t, code), w1) ->
  json_body req = Some (JDict d) ->
  d !! "email" = Some (JStr e) ->
  json_body req2 = Some (JDict d2) ->
  validate REGISTER_SCHEMA (JDict d2) = inr r2 ->
  d2 !! "email" = Some (JStr e) ->
  register_route config req2 w1 = (Return (Status "Email is already exsit", 409), w1).
Proof.
  intros Hrun Hj Hd Hj2 Hv2 Hd2.
  destruct (validate_REGISTER _ _ Hv2)
    as (? & ? & ? & e2 & (_ & _ & _ & Hd2') & (_ & _ & _ & He2) & _).
  assert (e2 = e) as -> by congruence.
  apply (register_route_taken _ _ _ _ _ Hj2 Hv2 He2).
  destruct (validate REGISTER_SCHEMA (JDict d)) as [error|r] eqn:Hv.
  { by rewrite (register_route_invalid config _ _ _ _ Hj Hv) in Hrun. }
  destruct (validate_REGISTER _ _ Hv)
    as (name & pw & ph & e1 & (_ & _ & _ & Hd') & (Hn & Hp & Hph & He) & _).
  assert (e1 = e) as -> by congruence.
  rewrite (register_route_valid config _ _ _ _ _ _ _ _ Hj Hv Hn Hp Hph He) in Hrun.
  destruct (query_first _ _); [done|].
  destruct (hashpw pw _) as [hashed|]; [|done]. cbv zeta in Hrun.
  destruct (store_accepts _ _); [|done]. injection Hrun as _ _ <-.
  eexists _, _. cbn. split; [apply lookup_insert_eq|done].
Qed.

(** X11. After a registration that answered with a token, whose body
    gave a user_name that no stored user had: when the password check
    accepts the hash that was made of the password, a login with the same
    user_name and password answers 200 with a token for the new user, whose
    row was stored under the drawn user_id. *)
Theorem register_then_login (req req2 : Request) (w w1 : World) (t1 : string)
    (code : Z) (d d2 : gmap string json) (r2 : gmap string pyval)
    (name pw : string) :
  register_route config req w = (Return (Token t1, code), w1) ->
  json_body req = Some (JDict d) ->
  d !! "user_name" = Some (JStr name) ->
  d !! "password" = Some (JStr pw) ->
  (forall k u, users w !! k = Some u -> user_name u <> PStr name) ->
  (forall hashed,
      hashpw pw (gensalt (S (draws w))) = Some hashed ->
      checkpw pw hashed = Some true) ->
  json_body req2 = Some (JDict d2) ->
  validate LOGIN_SCHEMA (JDict d2) = inr r2 ->
  d2 !! "user_name" = Some (JStr name) ->
  d2 !! "password" = Some (JStr pw) ->
  exists u,
    users w1 = <[uuid4 (draws w) := u]> (users w) /\
    user_name u = PStr name /\
    login_route config req2 w1 =
    (Return (Token (jwt_encode
                      (token_payload (clock (ticks w1)) (clock (S (ticks w1)))
                         default_expires_in (User_to_dict (uuid4 (draws w), u)))
                      private_key' algorithm'), 200),
     after_ticks 2 w1).
Proof.
  intros Hrun Hj Hdn Hdp Hfree Hcheck Hj2 Hv2 Hdn2 Hdp2.
  destruct (validate REGISTER_SCHEMA (JDict d)) as [error|r] eqn:Hv.
  { by rewrite (register_route_invalid config _ _ _ _ Hj Hv) in Hrun. }
  destruct (validate_REGISTER _ _ Hv)
    as (name' & pw' & ph & e & (Hdn' & Hdp' & _ & _) & (Hn & Hp & Hph & He) & _).
  assert (name' = name) as -> by congruence.
  assert (pw' = pw) as -> by congruence.
  destruct (validate_LOGIN _ _ Hv2) as (name2 & pw2 & Hdn2' & Hdp2' & Hn2 & Hp2).
  assert (name2 = name) as -> by congruence.
  assert (pw2 = pw) as -> by congruence.
  rewrite (register_route_valid config _ _ _ _ _ _ _ _ Hj Hv Hn Hp Hph He) in Hrun.
  destruct (query_first _ (users w)); [done|].
  destruct (hashpw pw _) as [hashed|] eqn:Hh; [|done]. cbv zeta in Hrun.
  destruct (store_accepts _ _); [|done]. injection Hrun as _ _ <-.
  specialize (Hcheck hashed eq_refl).
  eexists. split; [reflexivity|]. split; [reflexivity|].
  rewrite (login_route_valid config _ _ _ _ _ _ Hj2 Hv2 Hn2 Hp2). cbn.
  destruct (query_first _ (<[_ := _]> _)) as [[k u]|] eqn:Hq2.
  - apply query_first_Some in Hq2 as [Hk Hu%py_eq_PStr].
    destruct (decide (uuid4 (draws w) = k)) as [<-|Hne].
    + rewrite lookup_insert_eq in Hk. injection Hk as <-. cbn. by rewrite Hcheck.
    + rewrite lookup_insert_ne in Hk by done. by destruct (Hfree k u Hk).
  - pose proof (proj1 (query_first_None _ _) Hq2 (uuid4 (draws w)) _
                  (lookup_insert_eq _ _ _)) as Hf.
    cbn in Hf. by rewrite String.eqb_refl in Hf.
Qed.

End Flows.

(** alice's token, whose exp is 4601.75, presented when the clock reads
    4601.75. *)
Lemma expired_token_forbidden_witness :
  exists w',
    (forall f, token_required (platform := Demo.platform) Demo.config f
                 (Demo.as_alice None) (after_ticks 3601 Demo.world)
               = (Return (Status "Forbidden", 403), w')) /\
    users w' = users (after_ticks 3601 Demo.world) /\
    products w' = products (after_ticks 3601 Demo.world).
Proof.
  apply (expired_token_forbidden (platform := Demo.platform) Demo.config
           (Demo.as_alice None) (after_ticks 3601 Demo.world)
           "Bearer h.u1.s" "h.u1.s" Demo.alice_claims (PFloat (18407 # 4)) 4601);
    evaluate.
Defined.

Lemma login_token_needs_password_witness :
  exists d name pw k u hashed,
    json_body (Demo.anonymous (Demo.login_body "alice" "pw123456")) = Some (JDict d) /\
    d !! "user_name" = Some (JStr name) /\
    d !! "password" = Some (JStr pw) /\
    users Demo.world !! k = Some u /\
    user_name u = PStr name /\
    hash u = PStr hashed /\
    checkpw (Platform := Demo.platform) pw hashed = Some true /\
    200 = 200 /\ after_ticks 2 Demo.world = after_ticks 2 Demo.world.
Proof.
  apply (login_token_needs_password (platform := Demo.platform) Demo.config
           (Demo.anonymous (Demo.login_body "alice" "pw123456")) Demo.world
           "h.u1.s" 200 (after_ticks 2 Demo.world)).
  evaluate.
Defined.

(** alice sends the number 7 as a body. *)
Lemma scalar_body_handling_witness :
  register_route (platform := Demo.platform) Demo.config
    (Demo.as_alice (Some (JInt 7))) Demo.world
  = (Return (Status "Bad request", 400), Demo.world) /\
  create_product_route (platform := Demo.platform) Demo.config
    (Demo.as_alice (Some (JInt 7))) Demo.world
  = (Raise AttributeError, after_ticks 1 Demo.world) /\
  update_product_route (platform := Demo.platform) Demo.config
    (Demo.as_alice (Some (JInt 7))) Demo.world
  = (Raise AttributeError, after_ticks 1 Demo.world).
Proof.
  destruct (scalar_body_handling (platform := Demo.platform) Demo.config
              (Demo.as_alice (Some (JInt 7))) Demo.world (JInt 7) eq_refl I)
    as (H1 & _ & H3).
  destruct (H3 _ _ (alice_authenticated _)) as [H4 H5].
  repeat split; assumption.
Defined.

Lemma demo_emails_unique : unique_emails (users Demo.world).
Proof.
  intros k1 k2 u1 u2 e H1 H2 E1 E2. cbn in H1, H2.
  rewrite !lookup_insert_Some, lookup_empty in H1, H2.
  destruct H1 as [[<- <-]|[_ [[<- <-]|[_ [=]]]]],
           H2 as [[<- <-]|[_ [[<- <-]|[_ [=]]]]];
    cbn in E1, E2; congruence.
Qed.

Lemma demo_carol_is_new k u :
  users Demo.world !! k = Some u ->
  email u <> PStr "c@d.io" /\ user_name u <> PStr "carol".
Proof.
  cbn. rewrite !lookup_insert_Some, lookup_empty.
  intros [[<- <-]|[_ [[<- <-]|[_ [=]]]]]; by split.
Qed.

Lemma register_keeps_emails_unique_witness :
  unique_emails
    (users (register_route (platform := Demo.platform) Demo.config
              (Demo.anonymous (Demo.register_body "carol" "pw" "1" "c@d.io"))
              Demo.world).2).
Proof.
  apply (register_keeps_emails_unique (platform := Demo.platform) Demo.config
           (Demo.anonymous (Demo.register_body "carol" "pw" "1" "c@d.io"))
           Demo.world (Return (Token "h.u3.s", 200)) _ demo_emails_unique).
  evaluate.
Defined.

(** carol registers; dave then registers with carol's email. *)
Lemma register_twice_witness :
  register_route (platform := Demo.platform) Demo.config
    (Demo.anonymous (Demo.register_body "dave" "pw2" "2" "c@d.io"))
    (register_route (platform := Demo.platform) Demo.config
       (Demo.anonymous (Demo.register_body "carol" "pw" "1" "c@d.io"))
       Demo.world).2
  = (Return (Status "Email is already exsit", 409),
     (register_route (platform := Demo.platform) Demo.config
        (Demo.anonymous (Demo.register_body "carol" "pw" "1" "c@d.io"))
        Demo.world).2).
Proof.
  eapply (register_twice (platform := Demo.platform) Demo.config
            (Demo.anonymous (Demo.register_body "carol" "pw" "1" "c@d.io"))
            (Demo.anonymous (Demo.register_body "dave" "pw2" "2" "c@d.io"))
            Demo.world _ "h.u3.s" 200 _ _
            (Demo.register_request "dave" "pw2" "2" "c@d.io") "c@d.io");
    [evaluate | reflexivity | evaluate | reflexivity
     | evaluate | evaluate].
Defined.

(** carol registers and then logs in. *)
Lemma register_then_login_witness :
  exists u,
    users (register_route (platform := Demo.platform) Demo.config
             (Demo.anonymous (Demo.register_body "carol" "pw" "1" "c@d.io"))
             Demo.world).2
    = <["u3" := u]> (users Demo.world) /\
    user_name u = PStr "carol" /\
    login_route (platform := Demo.platform) Demo.config
      (Demo.anonymous (Demo.login_body "carol" "pw"))
      (register_route (platform := Demo.platform) Demo.config
         (Demo.anonymous (Demo.register_body "carol" "pw" "1" "c@d.io"))
         Demo.world).2
    = (Return (Token (jwt_encode (Platform := Demo.platform)
                        (token_payload (Demo.time 2) (Demo.time 3)
                           default_expires_in (User_to_dict ("u3", u)))
                        "private" "RS256"), 200),
       after_ticks 2
         (register_route (platform := Demo.platform) Demo.config
            (Demo.anonymous (Demo.register_body "carol" "pw" "1" "c@d.io"))
            Demo.world).2).
Proof.
  eapply (register_then_login (platform := Demo.platform) Demo.config
            (Demo.anonymous (Demo.register_body "carol" "pw" "1" "c@d.io"))
            (Demo.anonymous (Demo.login_body "carol" "pw")) Demo.world
            (register_route (platform := Demo.platform) Demo.config
               (Demo.anonymous (Demo.register_body "carol" "pw" "1" "c@d.io"))
               Demo.world).2
            "h.u3.s" 200 _ _ (Demo.login_request "carol" "pw") "carol" "pw");
    [evaluate | reflexivity | evaluate | evaluate
     | intros k u Hk; by apply (demo_carol_is_new k u)
     | intros hashed [= <-]; evaluate
     | reflexivity | evaluate | evaluate | evaluate].
Defined.

(** ** Requests in sequence, and the routes that only read *)

Section Sequences.
Context {platform : Platform}.
Variable config : Config.
Variable categories : gmap Z Category.

Local Arguments validate : simpl never.
Local Arguments query_first : simpl never.
Local Arguments store_accepts : simpl never.

Ltac open_calls :=
  unfold request_json, merge_User, add_Product, merge_Product, delete_Product,
    session_get_User, session_get_Product, create_token;
  unfold bind, copy, ret, raise, getitem, get_world, draw, encode, commit,
    set_users, set_products, now.

Ltac split_run H :=
  repeat (cbn in H;
          match type of H with
          | context [match ?x with _ => _ end] =>
              lazymatch x with
              | context [match _ with _ => _ end] => fail
              | _ => destruct x eqn:?
              end
          end).

(** The guard accepts a token that the library accepts, presented from the
    whole second of its iat on and before the whole second of its exp. *)
Lemma guard_accepts_token req w tok payload vi ve (t1 t2 : Z) :
  authorization req = Some ("Bearer " ++ tok) ->
  count_char newline tok = 0%nat ->
  enough_segments tok = true ->
  jws_verify tok (JWT_PUBLIC_KEY config) (JWT_ALGORITHM config) = Some payload ->
  payload !! "iat" = Some vi -> py_int vi = Return t1 ->
  payload !! "exp" = Some ve -> py_int ve = Return t2 ->
  (inject_Z t1 <= clock (ticks w))%Q ->
  (clock (ticks w) < inject_Z t2)%Q ->
  authenticated config req w payload (after_ticks 1 w).
Proof.
  intros Hh Hnl Hseg Hver Hi Hvi He Hve Hlo Hhi.
  exists ("Bearer " ++ tok), tok. split; [done|]. split.
  { unfold re_match_Bearer.
    by rewrite (strip_prefix_app "Bearer " tok), until_newline_id. }
  by apply (jwt_decode_times config tok payload t1 t2 vi ve w).
Qed.

(** A token made from the [to_dict] of a stored user opens GET /currentUser
    while it is valid, and the answer is that [to_dict]. *)
Lemma current_user_with_token req w tok (u : string * User) (t1 t2 : Q) T :
  authorization req = Some ("Bearer " ++ tok) ->
  count_char newline tok = 0%nat ->
  enough_segments tok = true ->
  jws_verify tok (JWT_PUBLIC_KEY config) (JWT_ALGORITHM config)
  = Some (token_payload t1 t2 T (User_to_dict u)) ->
  (inject_Z (whole t1) <= clock (ticks w))%Q ->
  (clock (ticks w) < inject_Z (whole (t2 + inject_Z T)))%Q ->
  users w !! u.1 = Some u.2 ->
  current_user_route config req w
  = (Return (Json (User_to_dict u), 200), after_ticks 1 w).
Proof.
  intros Hh Hnl Hseg Hver Hlo Hhi Hu.
  destruct (token_payload_User t1 t2 T u) as (Hid & _ & _ & _ & _ & _ & Hi & He & _).
  pose proof (guard_accepts_token _ _ _ _ _ _ _ _ Hh Hnl Hseg Hver Hi eq_refl
                He eq_refl Hlo Hhi) as Ha.
  unfold current_user_route.
  rewrite (token_required_authenticated config _ _ _ _ _ Ha).
  unfold current_user_route_body, bind, getitem. cbn [token]. rewrite Hid.
  unfold session_get_User, bind, get_world, ret. cbn. rewrite Hu.
  by destruct u.
Qed.


(** X13. After a registration that answered with a token: that token,
    presented as a bearer token on GET /currentUser while the library
    accepts it with the payload made at the registration and the clock, not
    before the whole second of its iat, is before the whole second of its
    exp, gets 200 with the user_name, phone and email of the registration
    body, the drawn user_id, role 0 and no profile picture. *)
Theorem register_then_current_user (req req2 : Request) (w w1 : World)
    (t : string) (code : Z) (d : gmap string json) (name ph e : string) :
  register_route config req w = (Return (Token t, code), w1) ->
  json_body req = Some (JDict d) ->
  d !! "user_name" = Some (JStr name) ->
  d !! "phone" = Some (JStr ph) ->
  d !! "email" = Some (JStr e) ->
  let identity : gmap string pyval :=
    <["user_id" := PStr (uuid4 (draws w))]>
    (<["user_name" := PStr name]>
    (<["phone" := PStr ph]>
    (<["role" := PInt 0]>
    (<["email" := PStr e]>
    (<["profile_picture" := PNone]> ∅))))) in
  let payload := token_payload (clock (ticks w)) (clock (S (ticks w)))
                   default_expires_in identity in
  enough_segments t = true ->
  count_char newline t = 0%nat ->
  jws_verify t (JWT_PUBLIC_KEY config) (JWT_ALGORITHM config) = Some payload ->
  (inject_Z (whole (clock (ticks w))) <= clock (ticks w1))%Q ->
  (clock (ticks w1)
   < inject_Z (whole (clock (S (ticks w)) + inject_Z default_expires_in)))%Q ->
  authorization req2 = Some ("Bearer " ++ t) ->
  current_user_route config req2 w1 = (Return (Json identity, 200), after_ticks 1 w1).
Proof.
  intros Hrun Hj Hdn Hdph Hde identity payload Hseg Hnl Hver Hlo Hhi Hh2.
  destruct (validate REGISTER_SCHEMA (JDict d)) as [error|r] eqn:Hv.
  { by rewrite (register_route_invalid config _ _ _ _ Hj Hv) in Hrun. }
  destruct (validate_REGISTER _ _ Hv)
    as (name' & pw & ph' & e' & (Hdn' & _ & Hdph' & Hde') & (Hn & Hp & Hph & He) & _).
  assert (name' = name) as -> by congruence.
  assert (ph' = ph) as -> by congruence.
  assert (e' = e) as -> by congruence.
  rewrite (register_route_valid config _ _ _ _ _ _ _ _ Hj Hv Hn Hp Hph He) in Hrun.
  destruct (query_first _ (users w)); [done|].
  destruct (hashpw pw _) as [hashed|]; [|done]. cbv zeta in Hrun.
  destruct (store_accepts _ _); [|done]. injection Hrun as _ _ <-.
  apply (current_user_with_token req2 _ t
           (uuid4 (draws w),
            mkUser (PStr name) (PStr ph) (PInt UserRole.user) (PStr e) PNone
              (PStr hashed))
           (clock (ticks w)) (clock (S (ticks w))) default_expires_in);
    try done.
  cbn. apply lookup_insert_eq.
Qed.

(** What a deletion that answers with success has done. *)
Lemma delete_success_inv product_id_ req w w' :
  delete_product_route config product_id_ req w
  = (Return (Message "success", 200), w') ->
  exists pid,
    bigint_of_text product_id_ = Some pid /\
    products w' = delete pid (products w).
Proof.
  intros H. apply token_required_inv in H as (claims & w1 & Ha & Hf); [|intros [=]].
  destruct (authenticated_frame config _ _ _ _ Ha) as (_ & Hps & _).
  unfold delete_product_route_body in Hf. revert Hf. open_calls. intros Hf.
  split_run Hf; try discriminate. injection Hf as <-.
  match goal with
  | E : _ <$> products w1 !! ?n = Some _ |- _ =>
      destruct (products w1 !! n) as [p'|]; [|done];
      cbn in E; injection E as <-; exists n
  end.
  split; [done|]. cbn. by rewrite Hps.
Qed.

(** X14. After a deletion that answered with success, GET on the same path
    answers 404, and so does a second deletion of the same path by any
    authenticated requester. *)
Theorem delete_then_gone (product_id_ : string) (req : Request) (w w' : World) :
  delete_product_route config product_id_ req w
  = (Return (Message "success", 200), w') ->
  (forall req1,
      get_product_route categories product_id_ req1 w'
      = (Return (Status "Not Found", 404), w')) /\
  (forall req2 claims w2,
      authenticated config req2 w' claims w2 ->
      delete_product_route config product_id_ req2 w'
      = (Return (Status "Not Found", 404), w2)).
Proof.
  intros H. apply delete_success_inv in H as (pid & Hb & Hps).
  split.
  - intros req1. unfold get_product_route, bind, session_get_Product, get_world, ret.
    cbn. by rewrite Hb, Hps, lookup_delete_eq.
  - intros req2 claims w2 Ha.
    destruct (authenticated_frame config _ _ _ _ Ha) as (_ & Hps2 & _).
    unfold delete_product_route.
    rewrite (token_required_authenticated config _ _ _ _ _ Ha).
    unfold delete_product_route_body, bind, session_get_Product, get_world, ret.
    cbn. by rewrite Hb, Hps2, Hps, lookup_delete_eq.
Qed.

Lemma updated_idem r p : updated r (updated r p) = updated r p.
Proof.
  unfold updated. cbn.
  by destruct (r !! "product_name"), (r !! "picture"), (r !! "selling_price"),
    (r !! "description"), (r !! "category_id").
Qed.

(** What an update that answers with success has done: the body passed
    the schema, the product it names was stored and owned by the requester,
    and the store took the row that the loop made. *)
Lemma update_success_inv req w w' claims w1 uid d :
  update_product_route config req w = (Return (Message "success", 200), w') ->
  authenticated config req w claims w1 ->
  claims !! "user_id" = Some uid ->
  json_body req = Some (JDict d) ->
  exists r pid p,
    validate UPDATE_PRODUCT_SCHEMA (JDict d) = inr r /\
    r !! "product_id" = Some (PInt pid) /\
    BIGINT pid = true /\
    products w !! pid = Some p /\
    py_ne (p_user_id p) uid = false /\
    store_accepts w1 (MergeProduct (pid, updated r p)) = true /\
    w' = with_products (<[pid := updated r p]> (products w)) w1.
Proof.
  intros Hrun Ha Hu Hj.
  destruct (authenticated_frame config _ _ _ _ Ha) as (_ & Hps & _).
  unfold update_product_route in Hrun.
  rewrite (token_required_authenticated config _ _ _ _ _ Ha) in Hrun.
  destruct (validate UPDATE_PRODUCT_SCHEMA (JDict d)) as [error|r] eqn:Hv.
  { by rewrite (update_product_route_body_invalid _ _ _ _ _ Hj Hv) in Hrun. }
  destruct (validate_UPDATE _ _ Hv) as (pid & _ & _ & _ & _ & _ & Hpid & _).
  exists r, pid.
  destruct (BIGINT pid) eqn:Hbig.
  - rewrite (update_product_route_body_valid (mkG claims) _ _ _ _ uid pid
               Hj Hv Hu Hpid Hbig) in Hrun.
    rewrite Hps in Hrun.
    destruct (products w !! pid) as [p|]; [|done]. exists p.
    destruct (py_ne (p_user_id p) uid); [done|].
    destruct (store_accepts w1 _) eqn:Hst; [|done].
    by injection Hrun as <-.
  - exfalso. revert Hrun.
    unfold update_product_route_body, request_json. rewrite Hj. open_calls.
    cbn. rewrite Hv. cbn. rewrite Hu. cbn. rewrite Hpid. cbn. rewrite Hbig.
    by destruct refuses_big_keys.
Qed.

(** X15. The update is idempotent: when the owner's PUT has succeeded and
    the store takes again what it took, the same body sent again by the same
    identity succeeds again and leaves the products table as the first PUT
    left it. *)
Theorem update_twice (req req2 : Request) (w w1 w' w2 : World)
    (claims claims2 : gmap string pyval) (uid : pyval) (d : gmap string json) :
  update_product_route config req w = (Return (Message "success", 200), w') ->
  authenticated config req w claims w1 ->
  claims !! "user_id" = Some uid ->
  json_body req = Some (JDict d) ->
  json_body req2 = Some (JDict d) ->
  authenticated config req2 w' claims2 w2 ->
  claims2 !! "user_id" = Some uid ->
  (forall wr, store_accepts w1 wr = true -> store_accepts w2 wr = true) ->
  exists w'',
    update_product_route config req2 w' = (Return (Message "success", 200), w'') /\
    products w'' = products w'.
Proof.
  intros Hrun Ha Hu Hj Hj2 Ha2 Hu2 Hagain.
  destruct (update_success_inv _ _ _ _ _ _ _ Hrun Ha Hu Hj)
    as (r & pid & p & Hv & Hpid & Hbig & Hp & Hown & Hst & ->).
  destruct (authenticated_frame config _ _ _ _ Ha2) as (_ & Hps2 & _).
  unfold update_product_route.
  rewrite (token_required_authenticated config _ _ _ _ _ Ha2).
  rewrite (update_product_route_body_valid (mkG claims2) _ _ _ _ uid pid
             Hj2 Hv Hu2 Hpid Hbig).
  rewrite Hps2. cbn [products with_products].
  rewrite lookup_insert_eq. cbn [p_user_id updated]. rewrite Hown.
  rewrite updated_idem, (Hagain _ Hst).
  eexists. split; [reflexivity|].
  cbn [products with_products]. by rewrite insert_insert_eq.
Qed.

Lemma to_dicts_Return {A} (f : A -> result (gmap string pyval)) rows ds :
  to_dicts f rows = Return ds ->
  length ds = length rows /\ forall m, In m rows -> exists d0, f m = Return d0.
Proof.
  revert ds. induction rows as [|m rows IH]; intros ds; cbn.
  - intros [= <-]. split; [done|]. intros m [].
  - destruct (f m) as [d0|e] eqn:Ef; [|done].
    destruct (to_dicts f rows) as [ds'|e]; [|done].
    intros [= <-]. destruct (IH ds' eq_refl) as [Hl Hall]. split; [cbn; lia|].
    intros m' [<-|Hin]; eauto.
Qed.

Lemma to_dicts_Raise {A} (f : A -> result (gmap string pyval)) rows e :
  to_dicts f rows = Raise e -> exists m, In m rows /\ f m = Raise e.
Proof.
  induction rows as [|m rows IH]; cbn; [done|].
  destruct (f m) as [d0|e0] eqn:Ef.
  - destruct (to_dicts f rows) as [ds'|e1]; [done|].
    intros [= <-]. destruct (IH eq_refl) as (m' & Hin & Hm'). eauto.
  - intros [= <-]. eauto.
Qed.

Lemma to_dicts_total {A} (f : A -> gmap string pyval) rows :
  to_dicts (fun m => Return (f m)) rows = Return (map f rows).
Proof. induction rows as [|m rows IH]; cbn; [done|]. by rewrite IH. Qed.

(** X16. GET /product never writes. It answers with the list of all
    products, one dict each, exactly when every stored product has a
    category; when some stored product has none it raises
    [AttributeError] and returns no response. *)
Theorem get_products_route_outcome (req : Request) (w : World) :
  (get_products_route categories req w).2 = w /\
  match (get_products_route categories req w).1 with
  | Return (Many l code) =>
      code = 200 /\ length l = size (products w) /\
      forall k p, products w !! k = Some p ->
                  is_Some (Product_category categories p)
  | Return (One _) => False
  | Raise e =>
      e = AttributeError /\
      exists k p, products w !! k = Some p /\ Product_category categories p = None
  end.
Proof.
  unfold get_products_route, bind, get_world, lift, ret. cbn.
  destruct (to_dicts _ _) as [ds|e] eqn:E; cbn; (split; [done|]).
  - apply to_dicts_Return in E as [Hl Hall]. split; [done|].
    split; [by rewrite Hl, length_map_to_list|].
    intros k p Hk.
    destruct (Hall (k, p)) as [d0 Hd0];
      [by apply list_elem_of_In, elem_of_map_to_list|].
    unfold Product_to_dict in Hd0. cbn in Hd0.
    by destruct (Product_category categories p).
  - apply to_dicts_Raise in E as ([k p] & Hin & Hm).
    apply list_elem_of_In, elem_of_map_to_list in Hin.
    unfold Product_to_dict in Hm. cbn in Hm.
    destruct (Product_category categories p) eqn:Hc; [done|].
    injection Hm as <-. eauto.
Qed.

(** X17. GET /category, once through the guard, answers 200 with one dict
    for every category, each category among them, and writes nothing. *)
Theorem get_categories_route_lists_all (req : Request) (w : World)
    (claims : gmap string pyval) (w1 : World) :
  authenticated config req w claims w1 ->
  exists l,
    get_categories_route config categories req w = (Return (Many l 200), w1) /\
    length l = size categories /\
    forall k c, categories !! k = Some c -> In (Category_to_dict (k, c)) l.
Proof.
  intros (h & tok & Hh & Hm & Hd).
  exists (map Category_to_dict (map_to_list categories)). split; [|split].
  - unfold get_categories_route, token_required_list. rewrite Hh, Hm.
    unfold bind, attempt. rewrite Hd.
    unfold get_categories_route_body, bind, lift, ret.
    by rewrite to_dicts_total.
  - by rewrite length_map, length_map_to_list.
  - intros k c Hk. apply in_map.
    by apply list_elem_of_In, elem_of_map_to_list.
Qed.

(** X18. What the owner's PUT writes, GET /product/<id> reads: after an
    update that answered with success, the product's dict holds the
    validated name, picture, price and description of the body and the name
    of the body's category, with the product's user_id and available as
    they were. *)
Theorem update_then_get (req req' : Request) (w w1 w' : World)
    (claims : gmap string pyval) (uid : pyval) (pid : Z) (p : Product)
    (d : gmap string json) (r : gmap string pyval) (path : string)
    (n pic price desc : pyval) (c : Z) (cat : Category) :
  update_product_route config req w = (Return (Message "success", 200), w') ->
  authenticated config req w claims w1 ->
  claims !! "user_id" = Some uid ->
  json_body req = Some (JDict d) ->
  validate UPDATE_PRODUCT_SCHEMA (JDict d) = inr r ->
  r !! "product_id" = Some (PInt pid) ->
  products w !! pid = Some p ->
  r !! "product_name" = Some n ->
  r !! "picture" = Some pic ->
  r !! "selling_price" = Some price ->
  r !! "description" = Some desc ->
  r !! "category_id" = Some (PInt c) ->
  categories !! c = Some cat ->
  bigint_of_text path = Some pid ->
  get_product_route categories path req' w'
  = (Return (Json (<["product_id" := PInt pid]>
                  (<["product_name" := n]>
                  (<["picture" := pic]>
                  (<["selling_price" := price]>
                  (<["description" := desc]>
                  (<["available" := available p]>
                  (<["user_id" := p_user_id p]>
                  (<["category" := category_name cat]> ∅)))))))), 200),
     w').
Proof.
  intros Hrun Ha Hu Hj Hv Hpid Hp Hn Hpic Hprice Hdesc Hc Hcat Hpath.
  destruct (update_success_inv _ _ _ _ _ _ _ Hrun Ha Hu Hj)
    as (r' & pid' & p' & Hv' & Hpid' & _ & Hp' & _ & _ & ->).
  assert (r' = r) as -> by congruence.
  assert (pid' = pid) as -> by congruence.
  assert (p' = p) as -> by congruence.
  unfold get_product_route, bind, session_get_Product, get_world, ret, lift.
  cbn. rewrite Hpath, lookup_insert_eq. cbn.
  unfold Product_to_dict, Product_category, updated. cbn.
  rewrite Hn, Hpic, Hprice, Hdesc, Hc. cbn. by rewrite Hcat.
Qed.

Lemma get_products_route_length req w l code w1 :
  get_products_route categories req w = (Return (Many l code), w1) ->
  length l = size (products w).
Proof.
  unfold get_products_route, bind, get_world, lift, ret. cbn.
  destruct (to_dicts _ _) as [ds|e] eqn:E; [|done].
  intros [= <- _ _]. apply to_dicts_Return in E as [Hl _].
  by rewrite Hl, length_map_to_list.
Qed.

(** X19. A POST on /product that is answered with 200 makes the listing of
    GET /product one entry longer, whenever the listing answers before and
    after. *)
Theorem create_then_listed (req req1 req2 : Request) (w w' w1 w2 : World)
    (body : Body) (l l' : list (gmap string pyval)) (code code' : Z) :
  create_product_route config req w = (Return (body, 200), w') ->
  get_products_route categories req1 w = (Return (Many l code), w1) ->
  get_products_route categories req2 w' = (Return (Many l' code'), w2) ->
  length l' = S (length l).
Proof.
  intros Hc Hl Hl'.
  apply get_products_route_length in Hl, Hl'. rewrite Hl, Hl'.
  apply token_required_inv in Hc as (claims & w0 & Ha & Ef); [|intros [=]].
  destruct (authenticated_frame config _ _ _ _ Ha) as (_ & Hps & _).
  unfold create_product_route_body in Ef. revert Ef. open_calls. intros Ef.
  split_run Ef; try discriminate; injection Ef as <- <-; cbn; rewrite Hps;
    apply map_size_insert_None, not_elem_of_dom, is_fresh.
Qed.

(** X20. GET /category from a request that the guard does not accept is
    answered 403 Forbidden, with no list, and writes nothing. *)
Theorem get_categories_route_forbidden (req : Request) (w : World) :
  (forall claims w1, ~ authenticated config req w claims w1) ->
  exists w1,
    get_categories_route config categories req w = (Return (One Forbidden), w1) /\
    users w1 = users w /\ products w1 = products w.
Proof.
  intros Hno. unfold get_categories_route, token_required_list.
  destruct (authorization req) as [h|] eqn:Eh; [|by eexists].
  destruct (re_match_Bearer h) as [tok|] eqn:Em; [|by eexists].
  unfold bind, attempt.
  destruct (jwt_decode tok _ _ w) as [[claims|e] w1] eqn:E.
  - destruct (Hno claims w1). exists h, tok. by rewrite Eh.
  - destruct (jwt_decode_frame _ _ _ _ _ _ E) as (Hu & Hp & _).
    exists w1. by rewrite Hu, Hp.
Qed.

End Sequences.


(** carol registers and asks who she is. *)
Lemma register_then_current_user_witness :
  current_user_route (platform := Shop.platform) Demo.config
    (mkRequest (Some "Bearer h.u3.s") None)
    (register_route (platform := Shop.platform) Demo.config
       (Demo.anonymous (Demo.register_body "carol" "pw" "1" "c@d.io"))
       Demo.world).2
  = (Return (Json (User_to_dict ("u3", Shop.carol)), 200),
     after_ticks 1
       (register_route (platform := Shop.platform) Demo.config
          (Demo.anonymous (Demo.register_body "carol" "pw" "1" "c@d.io"))
          Demo.world).2).
Proof.
  eapply (register_then_current_user (platform := Shop.platform) Demo.config
            (Demo.anonymous (Demo.register_body "carol" "pw" "1" "c@d.io"))
            (mkRequest (Some "Bearer h.u3.s") None) Demo.world
            (register_route (platform := Shop.platform) Demo.config
               (Demo.anonymous (Demo.register_body "carol" "pw" "1" "c@d.io"))
               Demo.world).2
            "h.u3.s" 200 _ "carol" "1" "c@d.io");
    [evaluate | reflexivity | evaluate ..].
Defined.

(** alice deletes her product; it is then gone for every reader, and bob's
    deletion of the same path finds nothing. *)
Lemma delete_then_gone_witness :
  get_product_route (platform := Demo.platform) Shop.categories "1"
    (Demo.anonymous JNull)
    (with_products (delete 1 (products Demo.world)) (after_ticks 1 Demo.world))
  = (Return (Status "Not Found", 404),
     with_products (delete 1 (products Demo.world)) (after_ticks 1 Demo.world)) /\
  delete_product_route (platform := Demo.platform) Demo.config "1"
    (Demo.as_bob None)
    (with_products (delete 1 (products Demo.world)) (after_ticks 1 Demo.world))
  = (Return (Status "Not Found", 404),
     with_products (delete 1 (products Demo.world)) (after_ticks 2 Demo.world)).
Proof.
  destruct (delete_then_gone (platform := Demo.platform) Demo.config
              Shop.categories "1" (Demo.as_alice None) Demo.world
              (with_products (delete 1 (products Demo.world))
                 (after_ticks 1 Demo.world)))
    as [Hget Hdel]; [evaluate|].
  split; [apply Hget|].
  apply (Hdel _ Demo.bob_claims).
  exists "Bearer h.u2.s", "h.u2.s". repeat split; evaluate.
Defined.

(** alice sends the same full update twice. *)
Lemma update_twice_witness :
  exists w'',
    update_product_route (platform := Demo.platform) Demo.config
      (Demo.as_alice (Some Demo.full_update))
      (with_products
         (<[1 := updated Demo.full_update_request Demo.lamp]> (products Demo.world))
         (after_ticks 1 Demo.world))
    = (Return (Message "success", 200), w'') /\
    products w''
    = products
        (with_products
           (<[1 := updated Demo.full_update_request Demo.lamp]> (products Demo.world))
           (after_ticks 1 Demo.world)).
Proof.
  eapply (update_twice (platform := Demo.platform) Demo.config
            (Demo.as_alice (Some Demo.full_update))
            (Demo.as_alice (Some Demo.full_update))
            Demo.world (after_ticks 1 Demo.world)
            (with_products
               (<[1 := updated Demo.full_update_request Demo.lamp]>
                  (products Demo.world))
               (after_ticks 1 Demo.world))
            (after_ticks 1
               (with_products
                  (<[1 := updated Demo.full_update_request Demo.lamp]>
                     (products Demo.world))
                  (after_ticks 1 Demo.world)))
            Demo.alice_claims Demo.alice_claims (PStr "u1"));
    [evaluate | apply alice_authenticated | evaluate | reflexivity | reflexivity
     | exists "Bearer h.u1.s", "h.u1.s"; repeat split; evaluate
     | evaluate
     | intros wr H; exact H].
Defined.

(** The listing of the demo products, each with a category; with the stool,
    whose category is not in the table, the listing raises. *)
Lemma get_products_route_demo :
  (exists l, get_products_route Shop.categories
               (Demo.anonymous JNull) Demo.world
             = (Return (Many l 200), Demo.world) /\ length l = 1%nat) /\
  get_products_route Shop.categories
    (Demo.anonymous JNull) Shop.world_with_stool
  = (Raise AttributeError, Shop.world_with_stool).
Proof. split; [eexists; split|]; evaluate. Qed.

(** alice lists the categories. *)
Lemma get_categories_route_lists_all_witness :
  exists l,
    get_categories_route (platform := Demo.platform) Demo.config Shop.categories
      (Demo.as_alice None) Demo.world
    = (Return (Many l 200), after_ticks 1 Demo.world) /\
    length l = size Shop.categories /\
    forall k c, Shop.categories !! k = Some c -> In (Category_to_dict (k, c)) l.
Proof.
  apply (get_categories_route_lists_all (platform := Demo.platform) Demo.config
           Shop.categories (Demo.as_alice None) Demo.world Demo.alice_claims
           (after_ticks 1 Demo.world) (alice_authenticated _)).
Defined.

(** alice updates her product and reads it back. *)
Lemma update_then_get_witness :
  get_product_route (platform := Demo.platform) Shop.categories "1"
    (Demo.anonymous JNull)
    (with_products
       (<[1 := updated Demo.full_update_request Demo.lamp]> (products Demo.world))
       (after_ticks 1 Demo.world))
  = (Return (Json (<["product_id" := PInt 1]>
                  (<["product_name" := PStr "Desk lamp"]>
                  (<["picture" := PStr "desk.png"]>
                  (<["selling_price" := PFloat (7 # 2)]>
                  (<["description" := PStr "A desk lamp"]>
                  (<["available" := available Demo.lamp]>
                  (<["user_id" := p_user_id Demo.lamp]>
                  (<["category" := category_name (mkCategory (PStr "Office"))]>
                     ∅)))))))), 200),
     with_products
       (<[1 := updated Demo.full_update_request Demo.lamp]> (products Demo.world))
       (after_ticks 1 Demo.world)).
Proof.
  eapply (update_then_get (platform := Demo.platform) Demo.config Shop.categories
            (Demo.as_alice (Some Demo.full_update)) (Demo.anonymous JNull)
            Demo.world (after_ticks 1 Demo.world) _ Demo.alice_claims (PStr "u1")
            1 Demo.lamp _ Demo.full_update_request "1"
            (PStr "Desk lamp") (PStr "desk.png") (PFloat (7 # 2))
            (PStr "A desk lamp") 3 (mkCategory (PStr "Office")));
    [evaluate | apply alice_authenticated | evaluate | reflexivity | evaluate ..].
Defined.

(** bob adds a chair to the demo products. *)
Lemma create_then_listed_witness :
  exists l l' : list (gmap string pyval),
    get_products_route Shop.categories (Demo.anonymous JNull) Demo.world
    = (Return (Many l 200), Demo.world) /\
    (get_products_route Shop.categories (Demo.anonymous JNull)
       (create_product_route (platform := Demo.platform) Demo.config
          (Demo.as_bob (Some Demo.new_product)) Demo.world).2).1
    = Return (Many l' 200) /\
    length l' = S (length l).
Proof.
  eexists _, _. split; [evaluate|]. split; [evaluate|].
  eapply (create_then_listed (platform := Demo.platform) Demo.config
            Shop.categories (Demo.as_bob (Some Demo.new_product))
            (Demo.anonymous JNull) (Demo.anonymous JNull) Demo.world);
    evaluate.
Defined.

(** A request without an Authorization header asks for the categories. *)
Lemma get_categories_route_forbidden_witness :
  exists w1,
    get_categories_route (platform := Demo.platform) Demo.config Shop.categories
      (Demo.anonymous JNull) Demo.world
    = (Return (One (Forbidden)), w1) /\
    users w1 = users Demo.world /\ products w1 = products Demo.world.
Proof.
  apply (get_categories_route_forbidden (platform := Demo.platform) Demo.config
           Shop.categories (Demo.anonymous JNull) Demo.world).
  intros claims w1 (h & tok & Hh & _). discriminate Hh.
Defined.
